(** * auth.py: credential lookup, session tokens and role guards

    A shallow embedding of [auth.py].  Python values that travel through
    the module (document fields, token claims) are kept dynamically
    typed, documents are finite maps from field names to values, the two
    MongoDB collections are lists of documents in insertion order, and a
    call that can raise returns an [outcome]. *)

From stdpp Require Import gmap strings list fin_maps.
From Stdlib Require Import ZArith NArith Lia Ascii.

Open Scope string_scope.

(** ** Python values *)

Inductive value : Type :=
| VNone
| VBool (b : bool)
| VInt (z : Z)
| VStr (s : string)
| VDatetime (us : Z)      (* naive datetime, microseconds since the epoch *)
| VObjectId (n : N).      (* bson ObjectId, a 12-byte number *)

#[global] Instance value_eq_dec : EqDecision value.
Proof. solve_decision. Defined.

(** Python truthiness, as used by [if x:] and [not x]. *)
Definition truthy (v : value) : bool :=
  match v with
  | VNone => false
  | VBool b => b
  | VInt z => negb (Z.eqb z 0)
  | VStr s => negb (String.eqb s "")
  | VDatetime _ => true
  | VObjectId _ => true
  end.

(** [v != s] for a string literal [s]. *)
Definition py_ne_str (v : value) (s : string) : bool :=
  match v with
  | VStr t => negb (String.eqb t s)
  | _ => true
  end.

(** A document (a Python dict with string keys). *)
Abbreviation doc := (gmap string value).

(** [if d:] on a dict. *)
Definition dict_truthy (d : doc) : bool := negb (bool_decide (d = ∅)).

(** [d.get(k, default)] *)
Definition dict_get (d : doc) (k : string) (default : value) : value :=
  match d !! k with
  | Some v => v
  | None => default
  end.

(** ** Exceptions and outcomes *)

Inductive exn : Type :=
| HTTPException (status_code : Z) (detail : string)
                (headers : option (list (string * string)))
| KeyError (key : string)
| TypeError (msg : string)
| UnknownHashError (msg : string).   (* passlib: hash could not be identified *)

Inductive outcome (A : Type) : Type :=
| Ret (a : A)
| Raise (e : exn).
Arguments Ret {A} a.
Arguments Raise {A} e.

#[global] Instance outcome_ret : MRet outcome := fun A a => Ret a.
#[global] Instance outcome_bind : MBind outcome := fun A B f m =>
  match m with
  | Ret a => f a
  | Raise e => Raise e
  end.

(** [d[k]] *)
Definition dict_item (d : doc) (k : string) : outcome value :=
  match d !! k with
  | Some v => Ret v
  | None => Raise (KeyError k)
  end.

Definition HTTP_401_UNAUTHORIZED : Z := 401.
Definition HTTP_403_FORBIDDEN : Z := 403.

(** ** The credential store *)

Record store : Type := Store {
  users_collection : list doc;
  manufacturers_collection : list doc
}.

(** The equality filter [{field: v}] of a query: a document matches when
    it holds [v] under [field]; a query for [None] also matches a
    document that lacks the field.  Array-valued fields, which the
    module never writes, are outside [value]. *)
Definition matches (field : string) (v : value) (d : doc) : bool :=
  match d !! field with
  | Some w => bool_decide (w = v)
  | None => bool_decide (v = VNone)
  end.

(** [collection.find_one({field: v})]: the first matching document. *)
Fixpoint find_one (field : string) (v : value) (c : list doc) : option doc :=
  match c with
  | [] => None
  | d :: c' => if matches field v d then Some d else find_one field v c'
  end.

(** [str(oid)] for an ObjectId: its twelve bytes as 24 lower-case
    hexadecimal digits. *)
Definition hex_digit (n : N) : ascii :=
  match String.get (N.to_nat n) "0123456789abcdef" with
  | Some c => c
  | None => "0"%char
  end.

Fixpoint hex_fixed (k : nat) (n : N) (acc : string) : string :=
  match k with
  | O => acc
  | S k' => hex_fixed k' (n / 16)%N (String (hex_digit (n mod 16)%N) acc)
  end.

Definition ObjectId_str (oid : N) : string := hex_fixed 24 oid "".

(** [collection.insert_one(d)] for a dict [d] without an [_id] key (both
    callers pass a dict literal that has none): the driver generates the
    ObjectId [oid], stores it under [_id], and the document goes to the
    end of the collection.  Returns the new collection and
    [inserted_id]. *)
Definition insert_one (oid : N) (d : doc) (c : list doc) : list doc * N :=
  ((c ++ [<["_id" := VObjectId oid]> d])%list, oid).

(** ** UserDB *)

Record UserDB : Type := mkUserDB {
  username : value;
  email : value;
  hashed_password : value;
  is_active : value;
  role : value
}.

#[global] Instance UserDB_eq_dec : EqDecision UserDB.
Proof. solve_decision. Defined.

(** The constructor of [UserDB] applied to an unpacked dict: three
    required keywords, two with defaults, any further keyword is
    swallowed by the catch-all keyword parameter. *)
Definition UserDB_of_kwargs (kw : doc) : outcome UserDB :=
  match kw !! "username", kw !! "email", kw !! "hashed_password" with
  | Some u, Some e, Some h =>
      Ret (mkUserDB u e h (dict_get kw "is_active" (VBool true))
                    (dict_get kw "role" (VStr "user")))
  | _, _, _ => Raise (TypeError "__init__() missing required positional argument")
  end.


(** [user.role = role] *)
Definition set_role (u : UserDB) (r : value) : UserDB :=
  mkUserDB (username u) (email u) (hashed_password u) (is_active u) r.

Definition get_user (st : store) (uname : value) : outcome (option UserDB) :=
  match find_one "username" uname (users_collection st) with
  | Some user_data =>
      if dict_truthy user_data then
        let user_data_without_id := delete "_id" user_data in
        u ← UserDB_of_kwargs user_data_without_id; Ret (Some u)
      else Ret None
  | None => Ret None
  end.

Definition get_manufacturer (st : store) (uname : value) : outcome (option doc) :=
  match find_one "username" uname (manufacturers_collection st) with
  | Some manufacturer_data =>
      if dict_truthy manufacturer_data then
        u ← dict_item manufacturer_data "username";
        e ← dict_item manufacturer_data "email";
        c ← dict_item manufacturer_data "company_name";
        Ret (Some (<["username" := u]>
                  (<["email" := e]>
                  (<["company_name" := c]>
                  (<["is_active" := dict_get manufacturer_data "is_active" (VBool true)]>
                  (<["role" := VStr "manufacturer"]> ∅))))))
      else Ret None
  | None => Ret None
  end.

(** Truthiness of what [find_one] returns: [None] and the empty dict are
    falsy. *)
Definition found (r : option doc) : bool :=
  match r with
  | Some d => dict_truthy d
  | None => false
  end.

(** ** Library boundaries *)

(** passlib's [CryptContext]: [hash] draws a salt, [verify] either
    answers or raises when it cannot read the stored hash. *)
Record CryptContext : Type := {
  hash : string -> string -> string;            (* salt, secret *)
  verify : string -> value -> outcome bool      (* secret, stored hash *)
}.

(** python-jose's [jwt] module.  [encode] returns the token or raises;
    [decode] returns the claims or raises [JWTError], for which [None]
    stands.  The last argument of [decode] is the clock it reads. *)
Record JoseJWT (token : Type) : Type := {
  encode : doc -> string -> string -> outcome token;
  decode : token -> string -> list string -> Z -> option doc
}.
Arguments encode {token} _ _ _ _.
Arguments decode {token} _ _ _ _ _.

(** Modelled from the spec: the declaration of [TokenData] ([models.py])
    is missing; it is taken as the pair of username and role that a
    successful verification yields, stored as given. *)
Record TokenData : Type := mkTokenData {
  td_username : value;
  td_role : value
}.

Inductive auth_result : Type :=
| AuthFalse                   (* the function returned [False] *)
| AuthUser (u : UserDB).

Definition SUPER_ADMIN_USERNAME : string := "admin".

Definition credentials_exception : exn :=
  HTTPException HTTP_401_UNAUTHORIZED "Could not validate credentials"
                (Some [("WWW-Authenticate", "Bearer")]).

Definition forbidden_exception : exn :=
  HTTPException HTTP_403_FORBIDDEN "Only super admins can access this endpoint" None.

(** [timedelta(minutes=15)] in microseconds. *)
Definition minutes (m : Z) : Z := m * 60 * 1000000.

(** ** The module *)

Section Auth.
(** The module-level globals: the password context, the token library,
    and the two settings imported from [config]. *)
Context {token : Type}.
Variable pwd_context : CryptContext.
Variable jwt : JoseJWT token.
Variable SECRET_KEY : string.
Variable ALGORITHM : string.

Definition verify_password (plain_password : string) (hashed_password : value)
  : outcome bool :=
  verify pwd_context plain_password hashed_password.

Definition get_password_hash (salt : string) (password : string) : string :=
  hash pwd_context salt password.

(** [init_super_admin]: [salt] and [oid] are what the hasher and the
    driver draw, [created_at] is [datetime.now().isoformat()].  Returns
    the store and the lines printed. *)
Definition init_super_admin (salt : string) (oid : N) (created_at : string)
    (st : store) : store * list string :=
  let super_admin :=
    find_one "username" (VStr SUPER_ADMIN_USERNAME) (users_collection st) in
  if negb (found super_admin) then
    let hashed_password := get_password_hash salt "admin123" in
    let '(users', _) :=
      insert_one oid
        (<["username" := VStr SUPER_ADMIN_USERNAME]>
        (<["email" := VStr "admin@hospital-device-risk.com"]>
        (<["hashed_password" := VStr hashed_password]>
        (<["is_active" := VBool true]>
        (<["role" := VStr "super_admin"]>
        (<["created_at" := VStr created_at]> ∅))))))
        (users_collection st) in
    (Store users' (manufacturers_collection st), ["Super admin user created"])
  else (st, []).

Definition authenticate_user (st : store) (uname : string) (password : string)
  : outcome auth_result :=
  user ← get_user st (VStr uname);
  match user with
  | None =>
      manufacturer ← get_manufacturer st (VStr uname);
      let verified : outcome bool :=
        if found manufacturer then
          match manufacturer with
          | Some m => verify_password password
                        (dict_get m "hashed_password" (VStr ""))
          | None => Ret false
          end
        else Ret false in
      ok ← verified;
      if ok : bool then
        match manufacturer with
        | Some m =>
            u ← dict_item m "username";
            e ← dict_item m "email";
            h ← dict_item m "hashed_password";
            a ← dict_item m "is_active";
            Ret (AuthUser (mkUserDB u e h a (VStr "manufacturer")))
        | None => Ret AuthFalse
        end
      else Ret AuthFalse
  | Some user =>
      ok ← verify_password password (hashed_password user);
      if negb ok then Ret AuthFalse else Ret (AuthUser user)
  end.

(** [expires_delta] is [None] or a [timedelta] in microseconds; a zero
    [timedelta] is falsy.  [utcnow] is the clock, in microseconds. *)
Definition create_access_token (data : doc) (expires_delta : option Z)
    (utcnow : Z) : outcome token :=
  let to_encode := data in
  let expire : Z :=
    match expires_delta with
    | Some d => if Z.eqb d 0 then (utcnow + minutes 15)%Z else (utcnow + d)%Z
    | None => (utcnow + minutes 15)%Z
    end in
  let to_encode := <["exp" := VDatetime expire]> to_encode in
  encode jwt to_encode SECRET_KEY ALGORITHM.

(** The [try] block of [get_current_user]: decode, read [sub] and
    [role], build the [TokenData]; [JWTError] and a missing [sub] both
    end in [credentials_exception]. *)
Definition decode_token_data (utcnow : Z) (tok : token)
  : outcome (TokenData * value) :=
  match decode jwt tok SECRET_KEY [ALGORITHM] utcnow with
  | Some payload =>
      let uname := dict_get payload "sub" VNone in
      let role := dict_get payload "role" (VStr "user") in
      if bool_decide (uname = VNone) then Raise credentials_exception
      else Ret (mkTokenData uname role, role)
  | None => Raise credentials_exception
  end.

(** The middle block of [get_current_user] ("Check both regular users
    and manufacturers collections"): the user store first, then the
    manufacturer store, whose document is turned into a [UserDB]. *)
Definition find_principal (st : store) (uname : value) : outcome (option UserDB) :=
  user ← get_user st uname;
  match user with
  | Some u => Ret (Some u)
  | None =>
      manufacturer ← get_manufacturer st uname;
      if found manufacturer then
        match manufacturer with
        | Some m =>
            let hashed_password := dict_get m "hashed_password" (VStr "") in
            u ← dict_item m "username";
            e ← dict_item m "email";
            Ret (Some (mkUserDB u e hashed_password
                         (dict_get m "is_active" (VBool true))
                         (dict_get m "role" (VStr "manufacturer"))))
        | None => Ret None
        end
      else Ret None
  end.

Definition get_current_user (st : store) (utcnow : Z) (tok : token)
  : outcome UserDB :=
  '(token_data, role) ← decode_token_data utcnow tok;
  user ← find_principal st (td_username token_data);
  match user with
  | None => Raise credentials_exception
  | Some user =>
      if negb (truthy (is_active user)) then Raise credentials_exception
      else Ret (set_role user role)
  end.

Definition get_super_admin_user (current_user : UserDB) : outcome UserDB :=
  if py_ne_str (role current_user) "super_admin"
  then Raise forbidden_exception
  else Ret current_user.

Definition create_manufacturer_user (salt : string) (oid : N) (created_at : string)
    (st : store) (uname email password company_name : string)
  : store * (bool * string) :=
  let existing_user :=
    find_one "username" (VStr uname) (manufacturers_collection st) in
  if found existing_user then (st, (false, "Username already exists"))
  else
    let existing_email :=
      find_one "email" (VStr email) (manufacturers_collection st) in
    if found existing_email then (st, (false, "Email already registered"))
    else
      let hashed_password := get_password_hash salt password in
      let manufacturer_data : doc :=
        <["username" := VStr uname]>
        (<["email" := VStr email]>
        (<["hashed_password" := VStr hashed_password]>
        (<["company_name" := VStr company_name]>
        (<["is_active" := VBool true]>
        (<["role" := VStr "manufacturer"]>
        (<["created_at" := VStr created_at]> ∅)))))) in
      let '(manufacturers', inserted_id) :=
        insert_one oid manufacturer_data (manufacturers_collection st) in
      (Store (users_collection st) manufacturers', (true, ObjectId_str inserted_id)).

Definition authenticate_manufacturer (st : store) (uname : string) (password : string)
  : outcome auth_result :=
  let manufacturer_data :=
    find_one "username" (VStr uname) (manufacturers_collection st) in
  if negb (found manufacturer_data) then Ret AuthFalse
  else
    match manufacturer_data with
    | None => Ret AuthFalse
    | Some md =>
        h ← dict_item md "hashed_password";
        ok ← verify_password password h;
        if negb ok then Ret AuthFalse
        else
          u ← dict_item md "username";
          e ← dict_item md "email";
          h ← dict_item md "hashed_password";
          Ret (AuthUser (mkUserDB u e h
                           (dict_get md "is_active" (VBool true))
                           (dict_get md "role" (VStr "manufacturer"))))
    end.

End Auth.

(** ** Reference instances of the two libraries *)

(** A transparent password scheme used to run the module on concrete
    stores: the stored string is [$plain$<salt>$<secret>].  Like
    passlib, its [verify] raises on a string it cannot identify. *)
Module PlainScheme.

Fixpoint strip_prefix (p s : string) : option string :=
  match p, s with
  | EmptyString, _ => Some s
  | String a p', String b s' =>
      if Ascii.eqb a b then strip_prefix p' s' else None
  | String _ _, EmptyString => None
  end.

Fixpoint after_dollar (s : string) : string :=
  match s with
  | EmptyString => EmptyString
  | String c s' => if Ascii.eqb c "$" then s' else after_dollar s'
  end.

Definition plain_hash (salt secret : string) : string :=
  "$plain$" ++ salt ++ "$" ++ secret.

Definition plain_verify (secret : string) (stored : value) : outcome bool :=
  match stored with
  | VStr s =>
      match strip_prefix "$plain$" s with
      | Some rest => Ret (String.eqb (after_dollar rest) secret)
      | None => Raise (UnknownHashError "hash could not be identified")
      end
  | VNone => Ret false
  | _ => Raise (TypeError "hash must be unicode or bytes")
  end.

Definition context : CryptContext :=
  {| hash := plain_hash; verify := plain_verify |}.

End PlainScheme.

(** A model of the compact signed token of python-jose with its default
    options: a token is either unparsable or carries an algorithm name,
    the claims and a signature; the keyed signature function [mac] is a
    parameter. *)
Module Jose.

Inductive jws : Type :=
| Malformed (raw : string)
| Compact (alg : string) (claims : doc) (signature : string).

(** [encode] replaces a datetime under [exp], [iat] or [nbf] by whole
    seconds since the epoch. *)
Definition numeric_date (k : string) (claims : doc) : doc :=
  match claims !! k with
  | Some (VDatetime us) => <[k := VInt (us `div` 1000000)]> claims
  | _ => claims
  end.

Definition json_serializable (v : value) : bool :=
  match v with
  | VDatetime _ | VObjectId _ => false
  | _ => true
  end.

Definition is_int_claim (k : string) (claims : doc) : bool :=
  match claims !! k with
  | None | Some (VInt _) => true
  | Some _ => false
  end.

Definition is_str_claim (k : string) (claims : doc) : bool :=
  match claims !! k with
  | None | Some (VStr _) => true
  | Some _ => false
  end.

(** [exp] must be an integer not earlier than the clock's second. *)
Definition not_expired (claims : doc) (utcnow : Z) : bool :=
  match claims !! "exp" with
  | None => true
  | Some (VInt e) => negb (e <? utcnow `div` 1000000)%Z
  | Some _ => false
  end.

Definition not_before (claims : doc) (utcnow : Z) : bool :=
  match claims !! "nbf" with
  | None => true
  | Some (VInt n) => negb (utcnow `div` 1000000 <? n)%Z
  | Some _ => false
  end.

Section Signed.
Variable mac : string -> string -> doc -> string.   (* key, alg, claims *)

Definition jwt_encode (claims : doc) (key alg : string) : outcome jws :=
  let claims :=
    numeric_date "nbf" (numeric_date "iat" (numeric_date "exp" claims)) in
  if forallb (fun kv => json_serializable (snd kv)) (map_to_list claims)
  then Ret (Compact alg claims (mac key alg claims))
  else Raise (TypeError "Object is not JSON serializable").

Definition jwt_decode (tok : jws) (key : string) (algorithms : list string)
    (utcnow : Z) : option doc :=
  match tok with
  | Malformed _ => None
  | Compact alg claims signature =>
      if existsb (String.eqb alg) algorithms
         && String.eqb signature (mac key alg claims)
         && not_expired claims utcnow
         && not_before claims utcnow
         && is_int_claim "iat" claims
         && is_str_claim "sub" claims
         && is_str_claim "jti" claims
         && bool_decide (claims !! "aud" = None)
      then Some claims
      else None
  end.

Definition jwt : JoseJWT jws :=
  {| encode := jwt_encode; decode := jwt_decode |}.
End Signed.

(** A stand-in signature for running examples. *)
Definition demo_mac (key alg : string) (claims : doc) : string :=
  alg ++ ":" ++ key.

End Jose.

(** ** Concrete stores used in the examples *)

Definition record (fields : list (string * value)) : doc := list_to_map fields.

Definition alice : doc :=
  record [("_id", VObjectId 1); ("username", VStr "alice"); ("email", VStr "alice@example.org");
          ("hashed_password", VStr "$plain$s1$wonderland");
          ("is_active", VBool true); ("role", VStr "user")].

Definition bob_inactive : doc :=
  record [("_id", VObjectId 2); ("username", VStr "bob"); ("email", VStr "bob@example.org");
          ("hashed_password", VStr "$plain$s2$builder");
          ("is_active", VBool false); ("role", VStr "user")].

Definition acme : doc :=
  record [("_id", VObjectId 3); ("username", VStr "acme"); ("email", VStr "sales@acme.example");
          ("hashed_password", VStr "$plain$s3$anvil"); ("company_name", VStr "ACME");
          ("is_active", VBool true); ("role", VStr "manufacturer");
          ("created_at", VStr "2024-01-01T00:00:00")].

Definition globex_inactive : doc :=
  record [("_id", VObjectId 4); ("username", VStr "globex"); ("email", VStr "hq@globex.example");
          ("hashed_password", VStr "$plain$s4$hank"); ("company_name", VStr "Globex");
          ("is_active", VBool false); ("role", VStr "manufacturer");
          ("created_at", VStr "2024-01-02T00:00:00")].

Definition demo_store : store :=
  Store [alice; bob_inactive] [acme; globex_inactive].

Definition demo_jwt : JoseJWT Jose.jws := Jose.jwt Jose.demo_mac.

Definition demo_token (claims : list (string * value)) : Jose.jws :=
  Jose.Compact "HS256" (record claims) (Jose.demo_mac "secret" "HS256" (record claims)).


(** ** Views used in the statements *)

(** The fields [get_user] needs besides the username it searched for. *)
Definition user_doc_ok (d : doc) : Prop :=
  is_Some (d !! "email") ∧ is_Some (d !! "hashed_password").

(** The fields [get_manufacturer] needs besides the username. *)
Definition manufacturer_doc_ok (d : doc) : Prop :=
  is_Some (d !! "email") ∧ is_Some (d !! "company_name").



(** The principal [get_user] builds from a user document. *)
Definition user_of_doc (d : doc) : UserDB :=
  mkUserDB (dict_get d "username" VNone) (dict_get d "email" VNone)
           (dict_get d "hashed_password" VNone)
           (dict_get d "is_active" (VBool true))
           (dict_get d "role" (VStr "user")).

(** The principal [get_current_user] builds from a manufacturer document
    before it assigns the role. *)
Definition manufacturer_view (d : doc) : UserDB :=
  mkUserDB (dict_get d "username" VNone) (dict_get d "email" VNone)
           (VStr "")
           (dict_get d "is_active" (VBool true))
           (VStr "manufacturer").

(** The dict [get_manufacturer] returns for a manufacturer document. *)
Definition manufacturer_fields (d : doc) : doc :=
  <["username" := dict_get d "username" VNone]>
  (<["email" := dict_get d "email" VNone]>
  (<["company_name" := dict_get d "company_name" VNone]>
  (<["is_active" := dict_get d "is_active" (VBool true)]>
  (<["role" := VStr "manufacturer"]> ∅)))).

(** The principal [authenticate_manufacturer] builds. *)
Definition manufacturer_of_doc (d : doc) : UserDB :=
  mkUserDB (dict_get d "username" VNone) (dict_get d "email" VNone)
           (dict_get d "hashed_password" VNone)
           (dict_get d "is_active" (VBool true))
           (dict_get d "role" (VStr "manufacturer")).



(** The check that closes [get_current_user], as a function of the
    principal found and the role read from the token. *)
Definition admit_principal (user : option UserDB) (role : value) : outcome UserDB :=
  match user with
  | None => Raise credentials_exception
  | Some user =>
      if truthy (is_active user) then Ret (set_role user role)
      else Raise credentials_exception
  end.


(** Number of documents of a collection stored under a username. *)
Definition records_named (u : string) (c : list doc) : nat :=
  length (List.filter (matches "username" (VStr u)) c).

(** The document [init_super_admin] inserts. *)
Definition super_admin_record (hashed : string) (oid : N) (created_at : string) : doc :=
  <["_id" := VObjectId oid]>
  (<["username" := VStr SUPER_ADMIN_USERNAME]>
  (<["email" := VStr "admin@hospital-device-risk.com"]>
  (<["hashed_password" := VStr hashed]>
  (<["is_active" := VBool true]>
  (<["role" := VStr "super_admin"]>
  (<["created_at" := VStr created_at]> ∅)))))).

(** The document [create_manufacturer_user] inserts. *)
Definition manufacturer_record (hashed : string) (oid : N) (created_at : string)
    (uname email company_name : string) : doc :=
  <["_id" := VObjectId oid]>
  (<["username" := VStr uname]>
  (<["email" := VStr email]>
  (<["hashed_password" := VStr hashed]>
  (<["company_name" := VStr company_name]>
  (<["is_active" := VBool true]>
  (<["role" := VStr "manufacturer"]>
  (<["created_at" := VStr created_at]> ∅))))))).




(** The message of the [TypeError] of the constructor of [UserDB]. *)
Definition missing_argument : exn :=
  TypeError "__init__() missing required positional argument".

(** A collection holds a document with value [v] under [field]. *)
Definition holds (field : string) (v : value) (c : list doc) : Prop :=
  ∃ d, d ∈ c ∧ d !! field = Some v.

(** * Properties *)

(** ** Queries *)

Lemma matches_lookup field v d :
  v ≠ VNone → matches field v d = true ↔ d !! field = Some v.
Proof.
  intros Hv. unfold matches. destruct (d !! field) as [w|].
  - rewrite bool_decide_eq_true. split; congruence.
  - rewrite bool_decide_eq_true. split; [contradiction | discriminate].
Qed.

Lemma matches_nonempty field v d :
  v ≠ VNone → matches field v d = true → dict_truthy d = true.
Proof.
  intros Hv Hm. apply matches_lookup in Hm; [|done].
  unfold dict_truthy. apply negb_true_iff, bool_decide_eq_false.
  intros ->. by rewrite lookup_empty in Hm.
Qed.

Lemma find_one_Some field v c d :
  find_one field v c = Some d → d ∈ c ∧ matches field v d = true.
Proof.
  induction c as [|d' c IH]; simpl; [done|].
  destruct (matches field v d') eqn:Hm.
  - intros [= ->]. split; [left | done].
  - intros H. destruct (IH H). split; [by right | done].
Qed.

Lemma find_one_None field v c :
  find_one field v c = None ↔ ∀ d, d ∈ c → matches field v d = false.
Proof.
  induction c as [|d' c IH]; simpl.
  - split; [|done]. intros _ d Hd. by apply elem_of_nil in Hd.
  - destruct (matches field v d') eqn:Hm.
    + split; [done|]. intros H. specialize (H d' (list_elem_of_here _ _)). congruence.
    + rewrite IH. split.
      * intros H d Hd. apply elem_of_cons in Hd as [->|Hd]; auto.
      * intros H d Hd. apply H. by right.
Qed.

Lemma find_one_app field v c1 c2 :
  find_one field v (c1 ++ c2)%list
  = match find_one field v c1 with
    | Some d => Some d
    | None => find_one field v c2
    end.
Proof.
  induction c1 as [|d c1 IH]; simpl; [done|].
  by destruct (matches field v d).
Qed.

Lemma found_find_one field v c :
  v ≠ VNone →
  found (find_one field v c) = bool_decide (is_Some (find_one field v c)).
Proof.
  intros Hv. destruct (find_one field v c) as [d|] eqn:Hf; unfold found.
  - apply find_one_Some in Hf as [_ Hm].
    rewrite (matches_nonempty _ _ _ Hv Hm). symmetry.
    apply bool_decide_eq_true_2. by eexists.
  - symmetry. apply bool_decide_eq_false_2. by intros [? ?].
Qed.

Lemma find_one_holds field (s : string) c :
  is_Some (find_one field (VStr s) c) ↔ holds field (VStr s) c.
Proof.
  split.
  - intros [d Hd]. apply find_one_Some in Hd as [Hin Hm].
    exists d. split; [done|]. by apply matches_lookup in Hm.
  - intros (d & Hin & Hl). destruct (find_one field (VStr s) c) eqn:Hf; [by eexists|].
    rewrite find_one_None in Hf. specialize (Hf d Hin).
    apply (matches_lookup field (VStr s) d) in Hl; [congruence | done].
Qed.




Lemma records_named_app u c1 c2 :
  records_named u (c1 ++ c2)%list = (records_named u c1 + records_named u c2)%nat.
Proof. unfold records_named. by rewrite List.filter_app, length_app. Qed.

Lemma records_named_absent u c :
  find_one "username" (VStr u) c = None → records_named u c = 0%nat.
Proof.
  unfold records_named. induction c as [|d c IH]; simpl; [done|].
  destruct (matches "username" (VStr u) d); [done | exact IH].
Qed.

Lemma records_named_present u c :
  is_Some (find_one "username" (VStr u) c) → (1 ≤ records_named u c)%nat.
Proof.
  unfold records_named. induction c as [|d c IH]; simpl.
  - by intros [? ?].
  - destruct (matches "username" (VStr u) d); simpl; [lia | exact IH].
Qed.

(** ** The super-admin guard *)

(** C7: [get_super_admin_user] raises the 403 exception exactly when the
    principal's role is not "super_admin", returns the principal itself
    exactly when it is, and the 403 exception is not the 401
    invalid-credentials exception. *)
Theorem get_super_admin_user_spec (p : UserDB) :
  (get_super_admin_user p = Raise forbidden_exception ↔ role p ≠ VStr "super_admin")
  ∧ (get_super_admin_user p = Ret p ↔ role p = VStr "super_admin")
  ∧ forbidden_exception ≠ credentials_exception.
Proof.
  unfold get_super_admin_user, py_ne_str.
  destruct (role p) as [| | |r| |] eqn:Hr; try (split_and!; [split; done | split; done | done]).
  destruct (String.eqb r "super_admin") eqn:He; simpl.
  - apply String.eqb_eq in He as ->. split_and!; [split; done | split; done | done].
  - apply String.eqb_neq in He.
    split_and!; [split; [congruence | done] | split; [done | congruence] | done].
Qed.

(** ** Bootstrap *)

Lemma init_super_admin_present ctx salt oid created_at st :
  is_Some (find_one "username" (VStr SUPER_ADMIN_USERNAME) (users_collection st)) →
  init_super_admin ctx salt oid created_at st = (st, []).
Proof.
  intros H. unfold init_super_admin.
  rewrite found_find_one by done. by rewrite bool_decide_eq_true_2.
Qed.

Lemma init_super_admin_absent ctx salt oid created_at st :
  find_one "username" (VStr SUPER_ADMIN_USERNAME) (users_collection st) = None →
  init_super_admin ctx salt oid created_at st
  = (Store (users_collection st ++
            [super_admin_record (hash ctx salt "admin123") oid created_at])%list
           (manufacturers_collection st),
     ["Super admin user created"]).
Proof. intros H. unfold init_super_admin. by rewrite H. Qed.

Lemma super_admin_record_matches hashed oid created_at :
  matches "username" (VStr SUPER_ADMIN_USERNAME)
          (super_admin_record hashed oid created_at) = true.
Proof. apply matches_lookup; [done|]. reflexivity. Qed.

(** C8: whatever the hasher, the driver and the clock supply on each
    run, a second run of [init_super_admin] changes nothing and prints
    nothing; after the runs the users collection holds one super-admin
    document if it held none, and as many as before otherwise; the
    document is inserted only when the username was absent. *)
Theorem init_super_admin_idempotent ctx s1 o1 t1 s2 o2 t2 (st : store) :
  let once := (init_super_admin ctx s1 o1 t1 st).1 in
  let again := init_super_admin ctx s2 o2 t2 once in
  again = (once, [])
  ∧ records_named SUPER_ADMIN_USERNAME (users_collection again.1)
    = Nat.max 1 (records_named SUPER_ADMIN_USERNAME (users_collection st))
  ∧ (holds "username" (VStr SUPER_ADMIN_USERNAME) (users_collection st) → once = st)
  ∧ (¬ holds "username" (VStr SUPER_ADMIN_USERNAME) (users_collection st) →
     once = Store (users_collection st ++
                   [super_admin_record (hash ctx s1 "admin123") o1 t1])%list
                  (manufacturers_collection st)).
Proof.
  intros once again. subst again once.
  destruct (find_one "username" (VStr SUPER_ADMIN_USERNAME) (users_collection st))
    as [d|] eqn:Hf.
  - assert (Hs : is_Some (find_one "username" (VStr SUPER_ADMIN_USERNAME)
                            (users_collection st))) by (by eexists).
    rewrite (init_super_admin_present ctx s1 o1 t1 st Hs). simpl.
    rewrite (init_super_admin_present ctx s2 o2 t2 st Hs). simpl.
    split_and!; [done | | done |].
    + pose proof (records_named_present _ _ Hs). lia.
    + intros Hn. exfalso. apply Hn. by apply find_one_holds.
  - rewrite (init_super_admin_absent ctx s1 o1 t1 st Hf). simpl.
    assert (Hs : is_Some (find_one "username" (VStr SUPER_ADMIN_USERNAME)
              (users_collection st ++
               [super_admin_record (hash ctx s1 "admin123") o1 t1])%list)).
    { rewrite find_one_app, Hf. simpl.
      rewrite super_admin_record_matches. by eexists. }
    rewrite init_super_admin_present by exact Hs. simpl.
    split_and!; [done | | | done].
    + rewrite records_named_app, (records_named_absent _ _ Hf).
      unfold records_named. simpl. by rewrite super_admin_record_matches.
    + intros Hh. apply find_one_holds in Hh as [? Hh]. congruence.
Qed.

(** ** Manufacturer registration *)


(** ** Lookups *)

Lemma dict_item_get d k v : d !! k = Some v → dict_item d k = Ret v.
Proof. unfold dict_item. by intros ->. Qed.

Lemma dict_get_Some d k v default : d !! k = Some v → dict_get d k default = v.
Proof. unfold dict_get. by intros ->. Qed.

Lemma dict_get_None d k default : d !! k = None → dict_get d k default = default.
Proof. unfold dict_get. by intros ->. Qed.

Lemma dict_get_delete d k k' default :
  k ≠ k' → dict_get (delete k d) k' default = dict_get d k' default.
Proof. intros Hk. unfold dict_get. by rewrite lookup_delete_ne. Qed.

Lemma get_user_absent st u :
  find_one "username" u (users_collection st) = None → get_user st u = Ret None.
Proof. unfold get_user. by intros ->. Qed.

Lemma get_user_found st u d :
  u ≠ VNone →
  find_one "username" u (users_collection st) = Some d →
  user_doc_ok d →
  get_user st u = Ret (Some (user_of_doc d)).
Proof.
  intros Hu Hf [[e He] [h Hh]]. unfold get_user. rewrite Hf.
  apply find_one_Some in Hf as [_ Hm].
  rewrite (matches_nonempty _ _ _ Hu Hm).
  apply matches_lookup in Hm; [|done].
  unfold UserDB_of_kwargs, user_of_doc.
  rewrite !lookup_delete_ne by done. rewrite Hm, He, Hh. simpl.
  rewrite !dict_get_delete by done.
  by rewrite (dict_get_Some _ _ _ _ Hm), (dict_get_Some _ _ _ _ He),
             (dict_get_Some _ _ _ _ Hh).
Qed.

Lemma get_manufacturer_absent st u :
  find_one "username" u (manufacturers_collection st) = None →
  get_manufacturer st u = Ret None.
Proof. unfold get_manufacturer. by intros ->. Qed.

Lemma get_manufacturer_found st u d :
  u ≠ VNone →
  find_one "username" u (manufacturers_collection st) = Some d →
  manufacturer_doc_ok d →
  get_manufacturer st u = Ret (Some (manufacturer_fields d)).
Proof.
  intros Hu Hf [[e He] [c Hc]]. unfold get_manufacturer. rewrite Hf.
  apply find_one_Some in Hf as [_ Hm].
  rewrite (matches_nonempty _ _ _ Hu Hm).
  apply matches_lookup in Hm; [|done].
  unfold manufacturer_fields.
  rewrite (dict_item_get _ _ _ Hm), (dict_item_get _ _ _ He), (dict_item_get _ _ _ Hc).
  by rewrite (dict_get_Some _ _ _ _ Hm), (dict_get_Some _ _ _ _ He),
             (dict_get_Some _ _ _ _ Hc).
Qed.

(** What [get_manufacturer] returns never carries the stored hash. *)
Lemma get_manufacturer_shape st u m :
  get_manufacturer st u = Ret (Some m) →
  ∃ d, find_one "username" u (manufacturers_collection st) = Some d
       ∧ m = manufacturer_fields d.
Proof.
  unfold get_manufacturer.
  destruct (find_one "username" u (manufacturers_collection st)) as [d|]; [|done].
  destruct (dict_truthy d); [|done].
  unfold dict_item, manufacturer_fields, dict_get.
  destruct (d !! "username") eqn:E1; [|done].
  destruct (d !! "email") eqn:E2; [|done].
  destruct (d !! "company_name") eqn:E3; [|done].
  simpl. intros [= <-]. exists d. split; [done|]. by rewrite E1, E2, E3.
Qed.

Lemma manufacturer_fields_no_hash d : manufacturer_fields d !! "hashed_password" = None.
Proof. reflexivity. Qed.

Lemma manufacturer_fields_truthy d : dict_truthy (manufacturer_fields d) = true.
Proof.
  unfold dict_truthy, manufacturer_fields.
  apply negb_true_iff, bool_decide_eq_false. apply insert_non_empty.
Qed.

(** ** Password login *)

Lemma authenticate_user_unknown ctx st (uname password : string) :
  find_one "username" (VStr uname) (users_collection st) = None →
  find_one "username" (VStr uname) (manufacturers_collection st) = None →
  authenticate_user ctx st uname password = Ret AuthFalse.
Proof.
  intros Hu Hm. unfold authenticate_user.
  by rewrite (get_user_absent _ _ Hu), (get_manufacturer_absent _ _ Hm).
Qed.

Lemma authenticate_user_stored ctx st (uname password : string) d :
  find_one "username" (VStr uname) (users_collection st) = Some d →
  user_doc_ok d →
  authenticate_user ctx st uname password
  = (ok ← verify ctx password (dict_get d "hashed_password" VNone);
     if ok : bool then Ret (AuthUser (user_of_doc d)) else Ret AuthFalse).
Proof.
  intros Hf Hok. unfold authenticate_user.
  rewrite (get_user_found st (VStr uname) d ltac:(done) Hf Hok). simpl.
  unfold verify_password.
  by destruct (verify ctx password (dict_get d "hashed_password" VNone)) as [[]|].
Qed.

Lemma authenticate_manufacturer_stored ctx st (uname password : string) d h :
  find_one "username" (VStr uname) (manufacturers_collection st) = Some d →
  d !! "hashed_password" = Some h →
  authenticate_manufacturer ctx st uname password
  = (ok ← verify ctx password h;
     if ok : bool then
       (e ← dict_item d "email"; Ret (AuthUser (manufacturer_of_doc d)))
     else Ret AuthFalse).
Proof.
  intros Hf Hh. unfold authenticate_manufacturer.
  rewrite found_find_one by done. rewrite Hf.
  rewrite bool_decide_eq_true_2 by (by eexists). simpl.
  apply find_one_Some in Hf as [_ Hm]. apply matches_lookup in Hm; [|done].
  rewrite (dict_item_get _ _ _ Hh). simpl. unfold verify_password.
  destruct (verify ctx password h) as [[]|]; simpl; [|done..].
  rewrite (dict_item_get _ _ _ Hm). simpl.
  unfold manufacturer_of_doc, dict_item.
  destruct (d !! "email") as [e|] eqn:He; simpl; [|done].
  by rewrite (dict_get_Some _ _ _ _ Hm), (dict_get_Some _ _ _ _ He),
             (dict_get_Some _ _ _ _ Hh).
Qed.

(** C1 (the code departs from the claim): for a username that only the
    manufacturer store knows, [authenticate_user] checks the password
    against the empty string, because the dict of [get_manufacturer] has
    no [hashed_password]; when that check fails it returns [False], when
    it raises the exception escapes, and were it to succeed the lookup of
    [hashed_password] raises [KeyError].  No password makes it return a
    principal. *)
Theorem authenticate_user_manufacturer_only ctx st (uname password : string) d :
  find_one "username" (VStr uname) (users_collection st) = None →
  find_one "username" (VStr uname) (manufacturers_collection st) = Some d →
  manufacturer_doc_ok d →
  authenticate_user ctx st uname password
  = (ok ← verify ctx password (VStr "");
     if ok : bool then Raise (KeyError "hashed_password") else Ret AuthFalse)
  ∧ ∀ pr, authenticate_user ctx st uname password ≠ Ret (AuthUser pr).
Proof.
  intros Hu Hm Hok.
  assert (Heq : authenticate_user ctx st uname password
    = (ok ← verify ctx password (VStr "");
       if ok : bool then Raise (KeyError "hashed_password") else Ret AuthFalse)).
  { unfold authenticate_user.
    rewrite (get_user_absent _ _ Hu). simpl.
    rewrite (get_manufacturer_found st (VStr uname) d ltac:(done) Hm Hok). simpl.
    rewrite manufacturer_fields_truthy.
    rewrite (dict_get_None _ _ _ (manufacturer_fields_no_hash d)).
    unfold verify_password.
    by destruct (verify ctx password (VStr "")) as [[]|]. }
  split; [exact Heq|].
  intros pr. rewrite Heq.
  by destruct (verify ctx password (VStr "")) as [[]|].
Qed.

Lemma authenticate_user_manufacturer_only_witness :
  authenticate_user PlainScheme.context demo_store "acme" "anvil"
  = (ok ← verify PlainScheme.context "anvil" (VStr "");
     if ok : bool then Raise (KeyError "hashed_password") else Ret AuthFalse)
  ∧ ∀ pr, authenticate_user PlainScheme.context demo_store "acme" "anvil"
          ≠ Ret (AuthUser pr).
Proof.
  apply (authenticate_user_manufacturer_only PlainScheme.context demo_store
           "acme" "anvil" acme).
  - reflexivity.
  - reflexivity.
  - split; eexists; reflexivity.
Defined.

(** On the reference scheme the call ends in the hasher's exception,
    although "anvil" is the password stored for "acme". *)
Example authenticate_user_acme :
  verify PlainScheme.context "anvil" (dict_get acme "hashed_password" VNone) = Ret true
  ∧ authenticate_user PlainScheme.context demo_store "acme" "anvil"
    = Raise (UnknownHashError "hash could not be identified")
  ∧ authenticate_manufacturer PlainScheme.context demo_store "acme" "anvil"
    = Ret (AuthUser (manufacturer_of_doc acme)).
Proof. split_and!; reflexivity. Qed.

(** ** Token resolution *)




Section Resolution.
Context {token : Type}.
Variable jwt : JoseJWT token.
Variables SECRET_KEY ALGORITHM : string.

Local Abbreviation current_user := (get_current_user jwt SECRET_KEY ALGORITHM).
Local Abbreviation decoded := (fun tok now => decode jwt tok SECRET_KEY [ALGORITHM] now).

Lemma get_current_user_undecoded st now tok :
  decoded tok now = None → current_user st now tok = Raise credentials_exception.
Proof. intros H. unfold get_current_user, decode_token_data. by rewrite H. Qed.

Lemma get_current_user_no_sub st now tok payload :
  decoded tok now = Some payload →
  dict_get payload "sub" VNone = VNone →
  current_user st now tok = Raise credentials_exception.
Proof.
  intros H Hs. unfold get_current_user, decode_token_data. rewrite H, Hs.
  by rewrite bool_decide_eq_true_2.
Qed.

Lemma get_current_user_decoded st now tok payload :
  decoded tok now = Some payload →
  dict_get payload "sub" VNone ≠ VNone →
  current_user st now tok
  = (user ← find_principal st (dict_get payload "sub" VNone);
     admit_principal user (dict_get payload "role" (VStr "user"))).
Proof.
  intros H Hs. unfold get_current_user, decode_token_data. rewrite H.
  rewrite bool_decide_eq_false_2 by done. simpl.
  destruct (find_principal st (dict_get payload "sub" VNone)) as [[p|]|]; simpl; try done.
  by destruct (truthy (is_active p)).
Qed.

(** Whatever [get_current_user] returns is a resolved, active principal
    whose role was overwritten with the role read from the token. *)
Lemma get_current_user_Ret_inv st now tok p :
  current_user st now tok = Ret p →
  ∃ payload p0,
    decoded tok now = Some payload
    ∧ dict_get payload "sub" VNone ≠ VNone
    ∧ find_principal st (dict_get payload "sub" VNone) = Ret (Some p0)
    ∧ truthy (is_active p0) = true
    ∧ p = set_role p0 (dict_get payload "role" (VStr "user")).
Proof.
  intros H.
  destruct (decoded tok now) as [payload|] eqn:Hd;
    [|by rewrite (get_current_user_undecoded _ _ _ Hd) in H].
  destruct (decide (dict_get payload "sub" VNone = VNone)) as [Hs|Hs];
    [by rewrite (get_current_user_no_sub _ _ _ _ Hd Hs) in H|].
  rewrite (get_current_user_decoded _ _ _ _ Hd Hs) in H.
  destruct (find_principal st (dict_get payload "sub" VNone)) as [[p0|]|] eqn:Hp;
    simpl in H; try done.
  destruct (truthy (is_active p0)) eqn:Ha; [|done].
  injection H as <-. exists payload, p0. by split_and!.
Qed.






(** C4: when the token decodes with a role claim [R] and
    [get_current_user] returns, the principal returned is the one found
    in the stores with its role replaced by [R]; the role of the stored
    record plays no part. *)
Theorem role_taken_from_token st now tok payload R p :
  decoded tok now = Some payload →
  payload !! "role" = Some R →
  current_user st now tok = Ret p →
  role p = R
  ∧ ∃ p0, find_principal st (dict_get payload "sub" VNone) = Ret (Some p0)
          ∧ p = set_role p0 R.
Proof.
  intros Hd HR Hp.
  apply get_current_user_Ret_inv in Hp as (payload' & p0 & Hd' & _ & Hf & _ & ->).
  rewrite Hd in Hd'. injection Hd' as <-.
  rewrite (dict_get_Some _ _ _ _ HR). split; [done|]. by exists p0.
Qed.



End Resolution.

(** ** Issuing and reading back a token *)

Lemma exp_seconds now :
  ((now + minutes 15) `div` 1000000 = now `div` 1000000 + 15 * 60)%Z.
Proof.
  unfold minutes. replace (15 * 60 * 1000000)%Z with (900 * 1000000)%Z by lia.
  rewrite Z.div_add by lia. lia.
Qed.

Lemma numeric_date_datetime k us (c : doc) :
  Jose.numeric_date k (<[k := VDatetime us]> c) = <[k := VInt (us `div` 1000000)]> c.
Proof. unfold Jose.numeric_date. by rewrite lookup_insert_eq, insert_insert_eq. Qed.

Lemma numeric_date_absent k (c : doc) : c !! k = None → Jose.numeric_date k c = c.
Proof. unfold Jose.numeric_date. by intros ->. Qed.

(** C6: for every signature function, key and algorithm name, the token
    that [create_access_token] issues for [{sub: S, role: R}] without an
    expiry argument carries as [exp] the second of the issuance time plus
    15 minutes, which is the issuance second + 15 * 60, is not
    expired at the clock of issuance, decodes there to its own claims,
    and the [try] block of [get_current_user] reads username [S] and
    role [R] from it. *)
Theorem issued_token_round_trip (mac : string → string → doc → string)
    (key alg S R : string) (now : Z) :
  let data : doc := <["sub" := VStr S]> (<["role" := VStr R]> ∅) in
  ∃ claims,
    let tok := Jose.Compact alg claims (mac key alg claims) in
    create_access_token (Jose.jwt mac) key alg data None now = Ret tok
    ∧ claims !! "exp" = Some (VInt ((now + minutes 15) `div` 1000000))
    ∧ ((now + minutes 15) `div` 1000000 = now `div` 1000000 + 15 * 60)%Z
    ∧ claims !! "sub" = Some (VStr S)
    ∧ claims !! "role" = Some (VStr R)
    ∧ Jose.not_expired claims now = true
    ∧ decode (Jose.jwt mac) tok key [alg] now = Some claims
    ∧ decode_token_data (Jose.jwt mac) key alg now tok
      = Ret (mkTokenData (VStr S) (VStr R), VStr R).
Proof.
  intros data. subst data.
  set (claims := <["exp" := VInt (now `div` 1000000 + 15 * 60)]>
                   (<["sub" := VStr S]> (<["role" := VStr R]> (∅ : doc)))).
  exists claims. cbn zeta.
  assert (Hexp : Jose.not_expired claims now = true).
  { unfold Jose.not_expired, claims. rewrite lookup_insert_eq.
    apply negb_true_iff, Z.ltb_ge. lia. }
  assert (Hdec : decode (Jose.jwt mac) (Jose.Compact alg claims (mac key alg claims))
                   key [alg] now = Some claims).
  { cbn [decode Jose.jwt]. unfold Jose.jwt_decode. rewrite Hexp. cbn [existsb].
    rewrite !String.eqb_refl. unfold claims.
    generalize (now `div` 1000000 + 15 * 60)%Z as e. intros e. reflexivity. }
  split_and!.
  - unfold create_access_token. cbn [encode Jose.jwt]. unfold Jose.jwt_encode.
    rewrite numeric_date_datetime, exp_seconds.
    rewrite !numeric_date_absent by reflexivity. unfold claims.
    generalize (now `div` 1000000 + 15 * 60)%Z as e. intros e. reflexivity.
  - rewrite exp_seconds. apply lookup_insert_eq.
  - apply exp_seconds.
  - reflexivity.
  - reflexivity.
  - exact Hexp.
  - exact Hdec.
  - unfold decode_token_data. rewrite Hdec. reflexivity.
Qed.

(** The same token on the example store: "alice" is stored with role
    "user" and comes back with the role of the token. *)
Example issued_token_resolves :
  match create_access_token demo_jwt "secret" "HS256"
          (record [("sub", VStr "alice"); ("role", VStr "super_admin")]) None
          1700000000123456 with
  | Ret tok =>
      get_current_user demo_jwt "secret" "HS256" demo_store 1700000000123456 tok
      = Ret (set_role (user_of_doc alice) (VStr "super_admin"))
      ∧ get_current_user demo_jwt "secret" "HS256" demo_store 1700000901000000 tok
        = Raise credentials_exception
  | Raise _ => False
  end.
Proof. vm_compute. split; reflexivity. Qed.

(** ** The example store *)



Lemma role_taken_from_token_witness :
  role (set_role (user_of_doc alice) (VStr "super_admin")) = VStr "super_admin"
  ∧ ∃ p0, find_principal demo_store (VStr "alice") = Ret (Some p0)
          ∧ set_role (user_of_doc alice) (VStr "super_admin")
            = set_role p0 (VStr "super_admin").
Proof.
  apply (role_taken_from_token demo_jwt "secret" "HS256" demo_store 1000000
           (demo_token [("sub", VStr "alice"); ("role", VStr "super_admin"); ("exp", VInt 5)])
           (record [("sub", VStr "alice"); ("role", VStr "super_admin"); ("exp", VInt 5)])
           (VStr "super_admin")
           (set_role (user_of_doc alice) (VStr "super_admin"))).
  - vm_compute. reflexivity.
  - vm_compute. reflexivity.
  - vm_compute. reflexivity.
Defined.




(** The gate at work: a well-signed, unexpired token for "bob". *)
Example inactive_token_rejected :
  let tok := demo_token [("sub", VStr "bob"); ("role", VStr "user"); ("exp", VInt 5)] in
  decode demo_jwt tok "secret" ["HS256"] 1000000
  = Some (record [("sub", VStr "bob"); ("role", VStr "user"); ("exp", VInt 5)])
  ∧ get_current_user demo_jwt "secret" "HS256" demo_store 1000000 tok
    = Raise credentials_exception.
Proof. split; vm_compute; reflexivity. Qed.

(** * Further properties of the module *)

(** ** Records and principals *)


(** X2: a user document that lacks [email] or [hashed_password] makes
    [get_user] raise the constructor's [TypeError]; the login for that
    username ends in the same exception, not in [False]. *)
Theorem user_record_missing_field ctx st (uname password : string) d :
  find_one "username" (VStr uname) (users_collection st) = Some d →
  d !! "email" = None ∨ d !! "hashed_password" = None →
  get_user st (VStr uname) = Raise missing_argument
  ∧ authenticate_user ctx st uname password = Raise missing_argument.
Proof.
  intros Hf Hmiss.
  assert (Hg : get_user st (VStr uname) = Raise missing_argument).
  { unfold get_user. rewrite Hf.
    apply find_one_Some in Hf as [_ Hm].
    rewrite (matches_nonempty "username" (VStr uname) d ltac:(done) Hm).
    apply matches_lookup in Hm; [|done].
    unfold UserDB_of_kwargs. rewrite !lookup_delete_ne by done. rewrite Hm.
    destruct Hmiss as [-> | ->]; [done|]. by destruct (d !! "email"). }
  split; [exact Hg|]. unfold authenticate_user. by rewrite Hg.
Qed.

Lemma user_record_missing_field_witness :
  let st := Store [record [("username", VStr "carol"); ("email", VStr "c@example.org")]] [] in
  get_user st (VStr "carol") = Raise missing_argument
  ∧ authenticate_user PlainScheme.context st "carol" "pw" = Raise missing_argument.
Proof.
  intros st.
  apply (user_record_missing_field PlainScheme.context st "carol" "pw"
           (record [("username", VStr "carol"); ("email", VStr "c@example.org")])).
  - vm_compute. reflexivity.
  - right. vm_compute. reflexivity.
Defined.

(** X3: the dict that [get_manufacturer] returns has exactly the keys
    username, email, company_name, is_active and role; its role is
    "manufacturer" whatever the stored role, and the stored hash is not
    part of it. *)
Theorem get_manufacturer_public_fields st u m :
  get_manufacturer st u = Ret (Some m) →
  dom m = list_to_set ["username"; "email"; "company_name"; "is_active"; "role"]
  ∧ m !! "role" = Some (VStr "manufacturer")
  ∧ m !! "hashed_password" = None.
Proof.
  intros H. apply get_manufacturer_shape in H as (d & _ & ->).
  split_and!; [|reflexivity..].
  unfold manufacturer_fields. rewrite !dom_insert_L, dom_empty_L. simpl.
  set_solver.
Qed.

Lemma get_manufacturer_public_fields_witness :
  ∃ m, get_manufacturer demo_store (VStr "acme") = Ret (Some m)
       ∧ dom m = list_to_set ["username"; "email"; "company_name"; "is_active"; "role"]
       ∧ m !! "role" = Some (VStr "manufacturer")
       ∧ m !! "hashed_password" = None.
Proof.
  exists (manufacturer_fields acme).
  assert (H : get_manufacturer demo_store (VStr "acme")
              = Ret (Some (manufacturer_fields acme))) by (vm_compute; reflexivity).
  split; [exact H|].
  exact (get_manufacturer_public_fields demo_store (VStr "acme")
           (manufacturer_fields acme) H).
Defined.

(** ** What a lookup returns *)

Lemma get_user_inv st u p :
  u ≠ VNone →
  get_user st u = Ret (Some p) →
  ∃ d, find_one "username" u (users_collection st) = Some d
       ∧ p = user_of_doc d ∧ username p = u.
Proof.
  intros Hu. unfold get_user.
  destruct (find_one "username" u (users_collection st)) as [d|] eqn:Hf; [|done].
  apply find_one_Some in Hf as [_ Hm].
  rewrite (matches_nonempty _ _ _ Hu Hm).
  apply matches_lookup in Hm; [|done].
  unfold UserDB_of_kwargs. rewrite !lookup_delete_ne by done. rewrite Hm.
  destruct (d !! "email") as [e|] eqn:He; [|done].
  destruct (d !! "hashed_password") as [h|] eqn:Hh; [|done].
  simpl. intros [= <-]. exists d. split_and!; [done| |done].
  unfold user_of_doc. rewrite !dict_get_delete by done.
  by rewrite (dict_get_Some _ _ _ _ Hm), (dict_get_Some _ _ _ _ He),
             (dict_get_Some _ _ _ _ Hh).
Qed.

Lemma get_user_None_inv st u :
  u ≠ VNone →
  get_user st u = Ret None →
  find_one "username" u (users_collection st) = None.
Proof.
  intros Hu. unfold get_user.
  destruct (find_one "username" u (users_collection st)) as [d|] eqn:Hf; [|done].
  apply find_one_Some in Hf as [_ Hm].
  rewrite (matches_nonempty _ _ _ Hu Hm).
  by destruct (UserDB_of_kwargs (delete "_id" d)).
Qed.

Lemma get_user_same_users st st' u :
  users_collection st = users_collection st' → get_user st u = get_user st' u.
Proof. intros H. unfold get_user. by rewrite H. Qed.

Lemma get_user_not_None st u :
  u ≠ VNone →
  is_Some (find_one "username" u (users_collection st)) →
  get_user st u ≠ Ret None.
Proof.
  intros Hu [d Hd] H. apply get_user_None_inv in H; [congruence | done].
Qed.

Lemma find_principal_inv st u p :
  u ≠ VNone →
  find_principal st u = Ret (Some p) →
  (∃ d, find_one "username" u (users_collection st) = Some d ∧ p = user_of_doc d)
  ∨ (find_one "username" u (users_collection st) = None
     ∧ ∃ d, find_one "username" u (manufacturers_collection st) = Some d
            ∧ p = manufacturer_view d).
Proof.
  intros Hu. unfold find_principal.
  destruct (get_user st u) as [[p'|]|] eqn:Hg; simpl; [| |done].
  - intros [= <-]. left.
    apply get_user_inv in Hg as (d & Hf & -> & _); [|done]. by exists d.
  - apply get_user_None_inv in Hg; [|done].
    destruct (get_manufacturer st u) as [[m|]|] eqn:Hm; simpl; [| done..].
    apply get_manufacturer_shape in Hm as (d & Hf & ->).
    rewrite manufacturer_fields_truthy. simpl. intros [= <-].
    right. split; [done|]. by exists d.
Qed.

Lemma find_principal_username st u p :
  u ≠ VNone → find_principal st u = Ret (Some p) → username p = u.
Proof.
  intros Hu H.
  destruct (find_principal_inv _ _ _ Hu H) as [(d & Hf & ->)|(_ & d & Hf & ->)];
    apply find_one_Some in Hf as [_ Hm]; apply matches_lookup in Hm; try done;
    simpl; by apply dict_get_Some.
Qed.

(** ** Soundness of the three entry points *)

(** X4: [authenticate_user] returns a principal only for a document of
    the user store found under the given username, and only when the
    password verified against the hash stored in that document. *)
Theorem authenticate_user_sound ctx st (uname password : string) p :
  authenticate_user ctx st uname password = Ret (AuthUser p) →
  ∃ d, find_one "username" (VStr uname) (users_collection st) = Some d
       ∧ p = user_of_doc d
       ∧ username p = VStr uname
       ∧ verify ctx password (hashed_password p) = Ret true.
Proof.
  unfold authenticate_user.
  destruct (get_user st (VStr uname)) as [[p'|]|] eqn:Hg; simpl; [| |done].
  - unfold verify_password.
    destruct (verify ctx password (hashed_password p')) as [[]|] eqn:Hv;
      simpl; [|done..].
    intros [= <-]. apply get_user_inv in Hg as (d & Hf & Hp & Hu); [|done].
    exists d. by split_and!.
  - destruct (get_manufacturer st (VStr uname)) as [[m|]|] eqn:Hm; simpl; [| done..].
    apply get_manufacturer_shape in Hm as (d & _ & ->).
    rewrite manufacturer_fields_truthy. unfold verify_password.
    destruct (verify ctx password
                (dict_get (manufacturer_fields d) "hashed_password" (VStr "")))
      as [[]|]; simpl; done.
Qed.

Lemma authenticate_user_sound_witness :
  ∃ d, find_one "username" (VStr "alice") (users_collection demo_store) = Some d
       ∧ user_of_doc alice = user_of_doc d
       ∧ username (user_of_doc alice) = VStr "alice"
       ∧ verify PlainScheme.context "wonderland" (hashed_password (user_of_doc alice))
         = Ret true.
Proof.
  apply (authenticate_user_sound PlainScheme.context demo_store "alice" "wonderland"
           (user_of_doc alice)).
  vm_compute. reflexivity.
Defined.

(** X5: [authenticate_manufacturer] returns a principal only for a
    document of the manufacturer store found under the given username,
    and only when the password verified against its stored hash. *)
Theorem authenticate_manufacturer_sound ctx st (uname password : string) p :
  authenticate_manufacturer ctx st uname password = Ret (AuthUser p) →
  ∃ d, find_one "username" (VStr uname) (manufacturers_collection st) = Some d
       ∧ p = manufacturer_of_doc d
       ∧ username p = VStr uname
       ∧ verify ctx password (hashed_password p) = Ret true.
Proof.
  unfold authenticate_manufacturer.
  destruct (find_one "username" (VStr uname) (manufacturers_collection st))
    as [d|] eqn:Hf; [|done].
  apply find_one_Some in Hf as [_ Hm].
  unfold found. rewrite (matches_nonempty "username" (VStr uname) d ltac:(done) Hm).
  apply matches_lookup in Hm; [|done]. simpl.
  destruct (d !! "hashed_password") as [h|] eqn:Hh.
  2:{ unfold dict_item. rewrite Hh. simpl. done. }
  rewrite !(dict_item_get _ _ _ Hh). simpl.
  unfold verify_password.
  destruct (verify ctx password h) as [[]|] eqn:Hv; simpl; [|done..].
  rewrite (dict_item_get _ _ _ Hm). simpl. unfold dict_item.
  destruct (d !! "email") as [e|] eqn:He; simpl; [|done].
  intros [= <-]. exists d. split_and!; [done| |done..].
  unfold manufacturer_of_doc.
  by rewrite (dict_get_Some _ _ _ _ Hm), (dict_get_Some _ _ _ _ He),
             (dict_get_Some _ _ _ _ Hh).
Qed.

Lemma authenticate_manufacturer_sound_witness :
  ∃ d, find_one "username" (VStr "acme") (manufacturers_collection demo_store) = Some d
       ∧ manufacturer_of_doc acme = manufacturer_of_doc d
       ∧ username (manufacturer_of_doc acme) = VStr "acme"
       ∧ verify PlainScheme.context "anvil" (hashed_password (manufacturer_of_doc acme))
         = Ret true.
Proof.
  apply (authenticate_manufacturer_sound PlainScheme.context demo_store "acme" "anvil"
           (manufacturer_of_doc acme)).
  vm_compute. reflexivity.
Defined.

(** X6: a username found in the user store is never looked up among the
    manufacturers: the outcome of [authenticate_user] is the same
    whatever the manufacturer collection holds. *)
Theorem authenticate_user_ignores_manufacturers ctx st st'
    (uname password : string) :
  users_collection st = users_collection st' →
  is_Some (find_one "username" (VStr uname) (users_collection st)) →
  authenticate_user ctx st uname password = authenticate_user ctx st' uname password.
Proof.
  intros Heq Hs.
  pose proof (get_user_not_None st (VStr uname) ltac:(done) Hs) as Hn.
  unfold authenticate_user. rewrite <- (get_user_same_users st st' _ Heq).
  by destruct (get_user st (VStr uname)) as [[p|]|].
Qed.

Lemma authenticate_user_ignores_manufacturers_witness :
  authenticate_user PlainScheme.context demo_store "alice" "wonderland"
  = authenticate_user PlainScheme.context
      (Store (users_collection demo_store)
             [record [("username", VStr "alice"); ("email", VStr "x@example.org");
                      ("hashed_password", VStr "$plain$s$other");
                      ("company_name", VStr "Alice Ltd")]])
      "alice" "wonderland".
Proof.
  apply authenticate_user_ignores_manufacturers.
  - reflexivity.
  - exists alice. vm_compute. reflexivity.
Defined.

Section Tokens.
Context {token : Type}.
Variable jwt : JoseJWT token.
Variables SECRET_KEY ALGORITHM : string.

Local Abbreviation current_user := (get_current_user jwt SECRET_KEY ALGORITHM).
Local Abbreviation decoded := (fun tok now => decode jwt tok SECRET_KEY [ALGORITHM] now).

(** X7: whatever [get_current_user] returns carries the username of the
    token's [sub] claim, is active, and has the role of the token's role
    claim, or "user" when the token has none. *)
Theorem get_current_user_sound st now tok p :
  current_user st now tok = Ret p →
  ∃ payload,
    decoded tok now = Some payload
    ∧ username p = dict_get payload "sub" VNone
    ∧ username p ≠ VNone
    ∧ truthy (is_active p) = true
    ∧ role p = dict_get payload "role" (VStr "user").
Proof.
  intros H.
  apply get_current_user_Ret_inv in H as (payload & p0 & Hd & Hs & Hf & Ha & ->).
  exists payload. apply find_principal_username in Hf; [|done].
  simpl. rewrite Hf. by split_and!.
Qed.

(** X8: when the username of the token is not in the user store, the
    principal returned is built from the manufacturer document and its
    [hashed_password] is the empty string: the stored hash does not
    leave the store on this path. *)
Theorem manufacturer_principal_carries_no_hash st now tok payload p :
  decoded tok now = Some payload →
  find_one "username" (dict_get payload "sub" VNone) (users_collection st) = None →
  current_user st now tok = Ret p →
  hashed_password p = VStr ""
  ∧ ∃ d, find_one "username" (dict_get payload "sub" VNone)
           (manufacturers_collection st) = Some d
         ∧ p = set_role (manufacturer_view d) (dict_get payload "role" (VStr "user")).
Proof.
  intros Hd Hu H.
  apply get_current_user_Ret_inv in H as (payload' & p0 & Hd' & Hs & Hf & _ & ->).
  rewrite Hd in Hd'. injection Hd' as <-.
  destruct (find_principal_inv _ _ _ Hs Hf) as [(d & Hf' & _)|(_ & d & Hm & ->)];
    [congruence|].
  split; [done|]. by exists d.
Qed.

(** X9: a username found in the user store is resolved there: the
    outcome of [get_current_user] for a token with that [sub] is the
    same whatever the manufacturer collection holds. *)
Theorem get_current_user_ignores_manufacturers st st' now tok payload :
  users_collection st = users_collection st' →
  decoded tok now = Some payload →
  is_Some (find_one "username" (dict_get payload "sub" VNone) (users_collection st)) →
  current_user st now tok = current_user st' now tok.
Proof.
  intros Heq Hd Hs.
  destruct (decide (dict_get payload "sub" VNone = VNone)) as [Hn|Hn].
  { by rewrite !(get_current_user_no_sub _ _ _ _ _ _ _ Hd Hn). }
  rewrite !(get_current_user_decoded _ _ _ _ _ _ _ Hd Hn).
  pose proof (get_user_not_None st _ Hn Hs) as Hnn.
  unfold find_principal. rewrite <- (get_user_same_users st st' _ Heq).
  by destruct (get_user st (dict_get payload "sub" VNone)) as [[p|]|].
Qed.

(** X10: for a principal that [get_current_user] returned, the
    super-admin guard is decided by the token alone: it passes exactly
    when the token's role claim is "super_admin", and a token without a
    role claim never passes. *)
Theorem super_admin_decided_by_token st now tok payload p :
  decoded tok now = Some payload →
  current_user st now tok = Ret p →
  (get_super_admin_user p = Ret p ↔ payload !! "role" = Some (VStr "super_admin"))
  ∧ (get_super_admin_user p = Raise forbidden_exception
     ↔ payload !! "role" ≠ Some (VStr "super_admin")).
Proof.
  intros Hd H.
  apply get_current_user_Ret_inv in H as (payload' & p0 & Hd' & _ & _ & _ & ->).
  rewrite Hd in Hd'. injection Hd' as <-.
  unfold get_super_admin_user, py_ne_str, dict_get. simpl.
  destruct (payload !! "role") as [[| | |r| |]|] eqn:Hr; simpl;
    try (split; split; (done || congruence)).
  destruct (String.eqb r "super_admin") eqn:He; simpl.
  - apply String.eqb_eq in He as ->. split; split; done.
  - apply String.eqb_neq in He. split; split; try done; congruence.
Qed.

(** X11: a manufacturer document without [company_name] makes the
    resolution of a token for it end in [KeyError], not in the 401
    exception and not in a principal. *)
Theorem manufacturer_without_company_name st now tok payload d :
  decoded tok now = Some payload →
  dict_get payload "sub" VNone ≠ VNone →
  find_one "username" (dict_get payload "sub" VNone) (users_collection st) = None →
  find_one "username" (dict_get payload "sub" VNone) (manufacturers_collection st)
  = Some d →
  is_Some (d !! "email") →
  d !! "company_name" = None →
  get_manufacturer st (dict_get payload "sub" VNone) = Raise (KeyError "company_name")
  ∧ current_user st now tok = Raise (KeyError "company_name").
Proof.
  intros Hd Hs Hu Hm [e He] Hc.
  assert (Hg : get_manufacturer st (dict_get payload "sub" VNone)
               = Raise (KeyError "company_name")).
  { unfold get_manufacturer. rewrite Hm.
    apply find_one_Some in Hm as [_ Hmt].
    rewrite (matches_nonempty _ _ _ Hs Hmt).
    apply matches_lookup in Hmt; [|done].
    rewrite (dict_item_get _ _ _ Hmt), (dict_item_get _ _ _ He). simpl.
    unfold dict_item. by rewrite Hc. }
  split; [exact Hg|].
  rewrite (get_current_user_decoded _ _ _ _ _ _ _ Hd Hs).
  unfold find_principal. by rewrite (get_user_absent _ _ Hu), Hg.
Qed.

End Tokens.

(** ** Registration and bootstrap followed by a login *)

Lemma not_holds_find_one field (s : string) c :
  ¬ holds field (VStr s) c ↔ find_one field (VStr s) c = None.
Proof.
  rewrite <- find_one_holds. split.
  - intros H. destruct (find_one field (VStr s) c) eqn:Hf; [|done].
    exfalso. apply H. by eexists.
  - intros -> [? ?]. done.
Qed.

Lemma create_manufacturer_user_fresh ctx salt oid created_at st
    (uname email password company_name : string) :
  ¬ holds "username" (VStr uname) (manufacturers_collection st) →
  ¬ holds "email" (VStr email) (manufacturers_collection st) →
  create_manufacturer_user ctx salt oid created_at st uname email password company_name
  = (Store (users_collection st)
           (manufacturers_collection st ++
            [manufacturer_record (hash ctx salt password) oid created_at
               uname email company_name])%list,
     (true, ObjectId_str oid)).
Proof.
  intros Hu He. apply not_holds_find_one in Hu, He.
  unfold create_manufacturer_user. by rewrite Hu, He.
Qed.

Lemma manufacturer_record_username hashed oid created_at (uname email company : string) :
  manufacturer_record hashed oid created_at uname email company !! "username"
  = Some (VStr uname).
Proof. reflexivity. Qed.

Lemma manufacturer_record_email hashed oid created_at (uname email company : string) :
  manufacturer_record hashed oid created_at uname email company !! "email"
  = Some (VStr email).
Proof. reflexivity. Qed.

Lemma find_one_appended field (s : string) c d :
  find_one field (VStr s) c = None →
  d !! field = Some (VStr s) →
  find_one field (VStr s) (c ++ [d])%list = Some d.
Proof.
  intros Hc Hd. rewrite find_one_app, Hc. simpl.
  apply (matches_lookup field (VStr s) d) in Hd; [|done]. by rewrite Hd.
Qed.

(** X12: after a successful registration the manufacturer can log in
    through [authenticate_manufacturer] with the registered password,
    provided the password context verifies the hash it has just made;
    the principal is active and has role "manufacturer". *)
Theorem registered_manufacturer_can_log_in ctx salt oid created_at st
    (uname email password company_name : string) :
  ¬ holds "username" (VStr uname) (manufacturers_collection st) →
  ¬ holds "email" (VStr email) (manufacturers_collection st) →
  verify ctx password (VStr (hash ctx salt password)) = Ret true →
  let registered :=
    create_manufacturer_user ctx salt oid created_at st
      uname email password company_name in
  registered.2.1 = true
  ∧ authenticate_manufacturer ctx registered.1 uname password
    = Ret (AuthUser (mkUserDB (VStr uname) (VStr email)
                       (VStr (hash ctx salt password)) (VBool true)
                       (VStr "manufacturer"))).
Proof.
  intros Hu He Hv registered. subst registered.
  rewrite (create_manufacturer_user_fresh _ _ _ _ _ _ _ _ _ Hu He). simpl.
  split; [done|].
  apply not_holds_find_one in Hu.
  rewrite (authenticate_manufacturer_stored ctx _ uname password
             (manufacturer_record (hash ctx salt password) oid created_at
                uname email company_name)
             (VStr (hash ctx salt password))).
  - rewrite Hv. reflexivity.
  - simpl. apply find_one_appended; [done|]. apply manufacturer_record_username.
  - reflexivity.
Qed.

Lemma registered_manufacturer_can_log_in_witness :
  let registered :=
    create_manufacturer_user PlainScheme.context "s9" 9 "2024-02-02T00:00:00"
      demo_store "initech" "it@initech.example" "tps" "Initech" in
  registered.2.1 = true
  ∧ authenticate_manufacturer PlainScheme.context registered.1 "initech" "tps"
    = Ret (AuthUser (mkUserDB (VStr "initech") (VStr "it@initech.example")
                       (VStr (hash PlainScheme.context "s9" "tps")) (VBool true)
                       (VStr "manufacturer"))).
Proof.
  apply (registered_manufacturer_can_log_in PlainScheme.context "s9" 9
           "2024-02-02T00:00:00" demo_store "initech" "it@initech.example" "tps"
           "Initech").
  - apply not_holds_find_one. vm_compute. reflexivity.
  - apply not_holds_find_one. vm_compute. reflexivity.
  - vm_compute. reflexivity.
Defined.

(** X13: after a successful registration, registering the same username
    again is refused with "Username already exists", and registering
    another, unused username with the same email is refused with "Email
    already registered"; neither attempt changes the store. *)
Theorem registration_refuses_duplicates ctx salt oid created_at st
    (uname email password company_name : string)
    salt' oid' created_at' (uname' email' password' company_name' : string) :
  ¬ holds "username" (VStr uname) (manufacturers_collection st) →
  ¬ holds "email" (VStr email) (manufacturers_collection st) →
  let st1 :=
    (create_manufacturer_user ctx salt oid created_at st
       uname email password company_name).1 in
  create_manufacturer_user ctx salt' oid' created_at' st1
    uname email' password' company_name'
  = (st1, (false, "Username already exists"))
  ∧ (uname' ≠ uname →
     ¬ holds "username" (VStr uname') (manufacturers_collection st) →
     create_manufacturer_user ctx salt' oid' created_at' st1
       uname' email password' company_name'
     = (st1, (false, "Email already registered"))).
Proof.
  intros Hu He st1. subst st1.
  rewrite (create_manufacturer_user_fresh _ _ _ _ _ _ _ _ _ Hu He). simpl.
  apply not_holds_find_one in Hu, He.
  split.
  - unfold create_manufacturer_user. simpl.
    rewrite (find_one_appended _ _ _ _ Hu (manufacturer_record_username _ _ _ _ _ _)).
    reflexivity.
  - intros Hne Hu'. apply not_holds_find_one in Hu'.
    unfold create_manufacturer_user. simpl.
    rewrite find_one_app, Hu'. simpl.
    assert (Hm : matches "username" (VStr uname')
                   (manufacturer_record (hash ctx salt password) oid created_at
                      uname email company_name) = false).
    { unfold matches. rewrite manufacturer_record_username.
      apply bool_decide_eq_false. congruence. }
    rewrite Hm. simpl.
    rewrite (find_one_appended _ _ _ _ He (manufacturer_record_email _ _ _ _ _ _)).
    reflexivity.
Qed.

Lemma registration_refuses_duplicates_witness :
  let st1 :=
    (create_manufacturer_user PlainScheme.context "s9" 9 "2024-02-02T00:00:00"
       demo_store "initech" "it@initech.example" "tps" "Initech").1 in
  create_manufacturer_user PlainScheme.context "s10" 10 "2024-02-03T00:00:00" st1
    "initech" "other@initech.example" "pw" "Initech 2"
  = (st1, (false, "Username already exists"))
  ∧ ("initrode" ≠ "initech" →
     ¬ holds "username" (VStr "initrode") (manufacturers_collection demo_store) →
     create_manufacturer_user PlainScheme.context "s10" 10 "2024-02-03T00:00:00" st1
       "initrode" "it@initech.example" "pw" "Initech 2"
     = (st1, (false, "Email already registered"))).
Proof.
  apply (registration_refuses_duplicates PlainScheme.context "s9" 9
           "2024-02-02T00:00:00" demo_store "initech" "it@initech.example" "tps"
           "Initech" "s10" 10 "2024-02-03T00:00:00" "initrode" "other@initech.example"
           "pw" "Initech 2").
  - apply not_holds_find_one. vm_compute. reflexivity.
  - apply not_holds_find_one. vm_compute. reflexivity.
Defined.







Lemma super_admin_record_fields hashed oid created_at :
  user_of_doc (super_admin_record hashed oid created_at)
  = mkUserDB (VStr SUPER_ADMIN_USERNAME) (VStr "admin@hospital-device-risk.com")
             (VStr hashed) (VBool true) (VStr "super_admin")
  ∧ user_doc_ok (super_admin_record hashed oid created_at).
Proof. split; [reflexivity|]. split; eexists; reflexivity. Qed.

(** X15: when the user store has no "admin", the account that
    [init_super_admin] creates can log in with the default password
    "admin123", provided the password context verifies the hash it has
    just made; the principal is active, has role "super_admin" and
    passes the super-admin guard. *)
Theorem bootstrap_admin_can_log_in ctx salt oid created_at st :
  ¬ holds "username" (VStr SUPER_ADMIN_USERNAME) (users_collection st) →
  verify ctx "admin123" (VStr (hash ctx salt "admin123")) = Ret true →
  let st' := (init_super_admin ctx salt oid created_at st).1 in
  let admin := mkUserDB (VStr SUPER_ADMIN_USERNAME)
                 (VStr "admin@hospital-device-risk.com")
                 (VStr (hash ctx salt "admin123")) (VBool true) (VStr "super_admin") in
  authenticate_user ctx st' SUPER_ADMIN_USERNAME "admin123" = Ret (AuthUser admin)
  ∧ get_super_admin_user admin = Ret admin.
Proof.
  intros Hn Hv st' admin. subst st' admin.
  apply not_holds_find_one in Hn.
  rewrite (init_super_admin_absent ctx salt oid created_at st Hn). simpl.
  split; [|reflexivity].
  destruct (super_admin_record_fields (hash ctx salt "admin123") oid created_at)
    as [Hfields Hok].
  rewrite (authenticate_user_stored ctx _ SUPER_ADMIN_USERNAME "admin123"
             (super_admin_record (hash ctx salt "admin123") oid created_at)).
  - rewrite Hfields. change (dict_get _ "hashed_password" VNone)
      with (VStr (hash ctx salt "admin123")). by rewrite Hv.
  - simpl. apply find_one_appended; [done | reflexivity].
  - exact Hok.
Qed.

Lemma bootstrap_admin_can_log_in_witness :
  let st' := (init_super_admin PlainScheme.context "s0" 100 "2024-01-01T00:00:00"
                demo_store).1 in
  let admin := mkUserDB (VStr SUPER_ADMIN_USERNAME)
                 (VStr "admin@hospital-device-risk.com")
                 (VStr (hash PlainScheme.context "s0" "admin123")) (VBool true)
                 (VStr "super_admin") in
  authenticate_user PlainScheme.context st' SUPER_ADMIN_USERNAME "admin123"
  = Ret (AuthUser admin)
  ∧ get_super_admin_user admin = Ret admin.
Proof.
  apply (bootstrap_admin_can_log_in PlainScheme.context "s0" 100
           "2024-01-01T00:00:00" demo_store).
  - apply not_holds_find_one. vm_compute. reflexivity.
  - vm_compute. reflexivity.
Defined.

(** X16: [init_super_admin] does not disturb the other accounts: for
    every username other than "admin" the user-store lookup, and with it
    the outcome of a login, is the same before and after, and the
    manufacturer store is left as it was. *)
Theorem bootstrap_preserves_other_accounts ctx salt oid created_at st
    (uname password : string) :
  uname ≠ SUPER_ADMIN_USERNAME →
  let st' := (init_super_admin ctx salt oid created_at st).1 in
  find_one "username" (VStr uname) (users_collection st')
  = find_one "username" (VStr uname) (users_collection st)
  ∧ manufacturers_collection st' = manufacturers_collection st
  ∧ authenticate_user ctx st' uname password = authenticate_user ctx st uname password
  ∧ authenticate_manufacturer ctx st' uname password
    = authenticate_manufacturer ctx st uname password.
Proof.
  intros Hne st'. subst st'.
  destruct (find_one "username" (VStr SUPER_ADMIN_USERNAME) (users_collection st))
    as [d|] eqn:Hf.
  { rewrite init_super_admin_present by (by eexists). by split_and!. }
  rewrite (init_super_admin_absent ctx salt oid created_at st Hf). simpl.
  assert (Hfind : find_one "username" (VStr uname)
            (users_collection st ++
             [super_admin_record (hash ctx salt "admin123") oid created_at])%list
          = find_one "username" (VStr uname) (users_collection st)).
  { rewrite find_one_app.
    destruct (find_one "username" (VStr uname) (users_collection st)); [done|].
    simpl.
    assert (Hm : matches "username" (VStr uname)
                   (super_admin_record (hash ctx salt "admin123") oid created_at)
                 = false).
    { unfold matches.
      change (super_admin_record _ _ _ !! "username")
        with (Some (VStr SUPER_ADMIN_USERNAME)).
      apply bool_decide_eq_false. congruence. }
    by rewrite Hm. }
  split_and!; [exact Hfind | done | | done].
  unfold authenticate_user, get_user, get_manufacturer. simpl. by rewrite Hfind.
Qed.

Lemma bootstrap_preserves_other_accounts_witness :
  let st' := (init_super_admin PlainScheme.context "s0" 100 "2024-01-01T00:00:00"
                demo_store).1 in
  find_one "username" (VStr "alice") (users_collection st')
  = find_one "username" (VStr "alice") (users_collection demo_store)
  ∧ manufacturers_collection st' = manufacturers_collection demo_store
  ∧ authenticate_user PlainScheme.context st' "alice" "wonderland"
    = authenticate_user PlainScheme.context demo_store "alice" "wonderland"
  ∧ authenticate_manufacturer PlainScheme.context st' "alice" "wonderland"
    = authenticate_manufacturer PlainScheme.context demo_store "alice" "wonderland".
Proof.
  apply (bootstrap_preserves_other_accounts PlainScheme.context "s0" 100
           "2024-01-01T00:00:00" demo_store "alice" "wonderland").
  discriminate.
Defined.

(** ** Lifetime of an issued token *)

Lemma jwt_encode_issued (mac : string → string → doc → string)
    (key alg S R : string) (us : Z) :
  let claims : doc :=
    <["exp" := VInt (us `div` 1000000)]>
      (<["sub" := VStr S]> (<["role" := VStr R]> ∅)) in
  Jose.jwt_encode mac
    (<["exp" := VDatetime us]> (<["sub" := VStr S]> (<["role" := VStr R]> ∅))) key alg
  = Ret (Jose.Compact alg claims (mac key alg claims)).
Proof.
  intros claims. subst claims. unfold Jose.jwt_encode.
  rewrite numeric_date_datetime.
  rewrite !numeric_date_absent by reflexivity.
  generalize (us `div` 1000000)%Z as e. intros e. reflexivity.
Qed.

Lemma decode_issued (mac : string → string → doc → string)
    (key alg S R : string) (e t : Z) :
  let claims : doc :=
    <["exp" := VInt e]> (<["sub" := VStr S]> (<["role" := VStr R]> ∅)) in
  decode_token_data (Jose.jwt mac) key alg t
    (Jose.Compact alg claims (mac key alg claims))
  = if (t `div` 1000000 <=? e)%Z
    then Ret (mkTokenData (VStr S) (VStr R), VStr R)
    else Raise credentials_exception.
Proof.
  intros claims. subst claims. unfold decode_token_data.
  cbn [decode Jose.jwt]. unfold Jose.jwt_decode. cbn [existsb].
  rewrite !String.eqb_refl.
  assert (Hexp : Jose.not_expired
                   (<["exp" := VInt e]> (<["sub" := VStr S]> (<["role" := VStr R]> ∅)))
                   t = (t `div` 1000000 <=? e)%Z).
  { unfold Jose.not_expired. rewrite lookup_insert_eq. symmetry. apply Z.leb_antisym. }
  rewrite Hexp. destruct (t `div` 1000000 <=? e)%Z; reflexivity.
Qed.



(** X18: an [expires_delta] of zero is not an immediate expiry: the
    token issued is the one issued without an expiry argument, and it is
    read back until 15 minutes after issuance. *)
Theorem zero_expires_delta_is_default (mac : string → string → doc → string)
    (key alg S R : string) (now t : Z) :
  ∃ tok,
    create_access_token (Jose.jwt mac) key alg
      (<["sub" := VStr S]> (<["role" := VStr R]> ∅)) (Some 0%Z) now = Ret tok
    ∧ create_access_token (Jose.jwt mac) key alg
        (<["sub" := VStr S]> (<["role" := VStr R]> ∅)) None now = Ret tok
    ∧ decode_token_data (Jose.jwt mac) key alg t tok
      = if (t `div` 1000000 <=? now `div` 1000000 + 15 * 60)%Z
        then Ret (mkTokenData (VStr S) (VStr R), VStr R)
        else Raise credentials_exception.
Proof.
  eexists. split_and!.
  - unfold create_access_token. cbn [Z.eqb encode Jose.jwt]. apply jwt_encode_issued.
  - unfold create_access_token. cbn [encode Jose.jwt]. apply jwt_encode_issued.
  - rewrite <- exp_seconds. apply decode_issued.
Qed.


(** The same on the example store: one changed signature character. *)
Example forged_token_example :
  get_current_user demo_jwt "secret" "HS256" demo_store 1000000
    (Jose.Compact "HS256"
       (record [("sub", VStr "alice"); ("role", VStr "super_admin"); ("exp", VInt 5)])
       "HS256:secreT")
  = Raise credentials_exception.
Proof. vm_compute. reflexivity. Qed.

(** ** From registration and bootstrap to a resolved token *)

Lemma manufacturer_record_view hashed oid created_at (uname email company : string) :
  manufacturer_view (manufacturer_record hashed oid created_at uname email company)
  = mkUserDB (VStr uname) (VStr email) (VStr "") (VBool true) (VStr "manufacturer")
  ∧ manufacturer_doc_ok (manufacturer_record hashed oid created_at uname email company).
Proof. split; [reflexivity|]. split; eexists; reflexivity. Qed.

(** X20: after a successful registration under a username the user
    store does not hold, every token that decodes with that username as
    [sub] resolves to the new manufacturer: the principal has the
    registered email, an empty [hashed_password], is active, and has the
    role of the token (or "user" without a role claim). *)
Theorem registered_manufacturer_token_resolves {token : Type} (jwt : JoseJWT token)
    (key alg : string) ctx salt oid created_at st
    (uname email password company_name : string) now tok payload :
  ¬ holds "username" (VStr uname) (manufacturers_collection st) →
  ¬ holds "email" (VStr email) (manufacturers_collection st) →
  ¬ holds "username" (VStr uname) (users_collection st) →
  decode jwt tok key [alg] now = Some payload →
  payload !! "sub" = Some (VStr uname) →
  let st' :=
    (create_manufacturer_user ctx salt oid created_at st
       uname email password company_name).1 in
  get_current_user jwt key alg st' now tok
  = Ret (mkUserDB (VStr uname) (VStr email) (VStr "") (VBool true)
           (dict_get payload "role" (VStr "user"))).
Proof.
  intros Hm He Hu Hd Hs st'. subst st'.
  rewrite (create_manufacturer_user_fresh _ _ _ _ _ _ _ _ _ Hm He). simpl.
  apply not_holds_find_one in Hm, Hu.
  assert (Hsub : dict_get payload "sub" VNone = VStr uname) by by apply dict_get_Some.
  rewrite (get_current_user_decoded _ _ _ _ _ _ _ Hd) by by rewrite Hsub.
  rewrite Hsub. unfold find_principal.
  rewrite (get_user_absent _ (VStr uname)) by done. simpl.
  destruct (manufacturer_record_view (hash ctx salt password) oid created_at
              uname email company_name) as [Hview Hok].
  rewrite (get_manufacturer_found _ (VStr uname)
             (manufacturer_record (hash ctx salt password) oid created_at
                uname email company_name)); [|done| |done].
  - simpl. rewrite manufacturer_fields_truthy. reflexivity.
  - simpl. apply find_one_appended; [done|]. apply manufacturer_record_username.
Qed.

Lemma registered_manufacturer_token_resolves_witness :
  let st' :=
    (create_manufacturer_user PlainScheme.context "s9" 9 "2024-02-02T00:00:00"
       demo_store "initech" "it@initech.example" "tps" "Initech").1 in
  get_current_user demo_jwt "secret" "HS256" st' 1000000
    (demo_token [("sub", VStr "initech"); ("role", VStr "manufacturer"); ("exp", VInt 5)])
  = Ret (mkUserDB (VStr "initech") (VStr "it@initech.example") (VStr "") (VBool true)
           (dict_get (record [("sub", VStr "initech"); ("role", VStr "manufacturer");
                              ("exp", VInt 5)]) "role" (VStr "user"))).
Proof.
  apply (registered_manufacturer_token_resolves demo_jwt "secret" "HS256"
           PlainScheme.context "s9" 9 "2024-02-02T00:00:00" demo_store
           "initech" "it@initech.example" "tps" "Initech" 1000000%Z).
  - apply not_holds_find_one. vm_compute. reflexivity.
  - apply not_holds_find_one. vm_compute. reflexivity.
  - apply not_holds_find_one. vm_compute. reflexivity.
  - vm_compute. reflexivity.
  - vm_compute. reflexivity.
Defined.

Lemma jwt_decode_issued (mac : string → string → doc → string)
    (key alg S R : string) (e t : Z) :
  let claims : doc :=
    <["exp" := VInt e]> (<["sub" := VStr S]> (<["role" := VStr R]> ∅)) in
  (t `div` 1000000 ≤ e)%Z →
  decode (Jose.jwt mac) (Jose.Compact alg claims (mac key alg claims)) key [alg] t
  = Some claims.
Proof.
  intros claims Hle. subst claims.
  cbn [decode Jose.jwt]. unfold Jose.jwt_decode. cbn [existsb].
  rewrite !String.eqb_refl.
  assert (Hexp : Jose.not_expired
                   (<["exp" := VInt e]> (<["sub" := VStr S]> (<["role" := VStr R]> ∅)))
                   t = true).
  { unfold Jose.not_expired. rewrite lookup_insert_eq.
    apply negb_true_iff, Z.ltb_ge. exact Hle. }
  rewrite Hexp. reflexivity.
Qed.

(** X21: the whole path of the bootstrap account.  When the user store
    has no "admin", after [init_super_admin] the token that
    [create_access_token] issues for [{sub: "admin", role:
    "super_admin"}] is resolved by [get_current_user] to the account
    just created, and that principal passes [get_super_admin_user]. *)
Theorem bootstrap_admin_token_passes_guard (mac : string → string → doc → string)
    (key alg : string) ctx salt oid created_at st (now : Z) :
  ¬ holds "username" (VStr SUPER_ADMIN_USERNAME) (users_collection st) →
  let st' := (init_super_admin ctx salt oid created_at st).1 in
  let admin := mkUserDB (VStr SUPER_ADMIN_USERNAME)
                 (VStr "admin@hospital-device-risk.com")
                 (VStr (hash ctx salt "admin123")) (VBool true) (VStr "super_admin") in
  ∃ tok,
    create_access_token (Jose.jwt mac) key alg
      (<["sub" := VStr SUPER_ADMIN_USERNAME]> (<["role" := VStr "super_admin"]> ∅))
      None now = Ret tok
    ∧ get_current_user (Jose.jwt mac) key alg st' now tok = Ret admin
    ∧ get_super_admin_user admin = Ret admin.
Proof.
  intros Hn st' admin. subst st' admin.
  apply not_holds_find_one in Hn.
  rewrite (init_super_admin_absent ctx salt oid created_at st Hn). cbn [fst].
  set (claims := <["exp" := VInt ((now + minutes 15) `div` 1000000)]>
                   (<["sub" := VStr SUPER_ADMIN_USERNAME]>
                   (<["role" := VStr "super_admin"]> (∅ : doc)))).
  exists (Jose.Compact alg claims (mac key alg claims)).
  assert (Hdec : decode (Jose.jwt mac) (Jose.Compact alg claims (mac key alg claims))
                   key [alg] now = Some claims).
  { apply jwt_decode_issued. rewrite exp_seconds. lia. }
  assert (Hsub : dict_get claims "sub" VNone = VStr SUPER_ADMIN_USERNAME).
  { unfold claims. generalize ((now + minutes 15) `div` 1000000)%Z. reflexivity. }
  assert (Hrole : dict_get claims "role" (VStr "user") = VStr "super_admin").
  { unfold claims. generalize ((now + minutes 15) `div` 1000000)%Z. reflexivity. }
  split_and!; [| |reflexivity].
  - unfold create_access_token. cbn [encode Jose.jwt]. apply jwt_encode_issued.
  - rewrite (get_current_user_decoded _ _ _ _ _ _ _ Hdec) by by rewrite Hsub.
    rewrite Hsub, Hrole. unfold find_principal.
    destruct (super_admin_record_fields (hash ctx salt "admin123") oid created_at)
      as [Hfields Hok].
    rewrite (get_user_found _ (VStr SUPER_ADMIN_USERNAME)
               (super_admin_record (hash ctx salt "admin123") oid created_at));
      [|done| |done].
    + rewrite Hfields. reflexivity.
    + cbn [users_collection]. apply find_one_appended; [done | reflexivity].
Qed.

Lemma bootstrap_admin_token_passes_guard_witness :
  let st' := (init_super_admin PlainScheme.context "s0" 100 "2024-01-01T00:00:00"
                demo_store).1 in
  let admin := mkUserDB (VStr SUPER_ADMIN_USERNAME)
                 (VStr "admin@hospital-device-risk.com")
                 (VStr (hash PlainScheme.context "s0" "admin123")) (VBool true)
                 (VStr "super_admin") in
  ∃ tok,
    create_access_token (Jose.jwt Jose.demo_mac) "secret" "HS256"
      (<["sub" := VStr SUPER_ADMIN_USERNAME]> (<["role" := VStr "super_admin"]> ∅))
      None 1700000000123456%Z = Ret tok
    ∧ get_current_user (Jose.jwt Jose.demo_mac) "secret" "HS256" st'
        1700000000123456%Z tok = Ret admin
    ∧ get_super_admin_user admin = Ret admin.
Proof.
  apply (bootstrap_admin_token_passes_guard Jose.demo_mac "secret" "HS256"
           PlainScheme.context "s0" 100 "2024-01-01T00:00:00" demo_store
           1700000000123456%Z).
  apply not_holds_find_one. vm_compute. reflexivity.
Defined.

(** ** The token theorems on the example store *)

Lemma get_current_user_sound_witness :
  ∃ payload,
    decode demo_jwt
      (demo_token [("sub", VStr "alice"); ("role", VStr "super_admin"); ("exp", VInt 5)])
      "secret" ["HS256"] 1000000 = Some payload
    ∧ username (set_role (user_of_doc alice) (VStr "super_admin"))
      = dict_get payload "sub" VNone
    ∧ username (set_role (user_of_doc alice) (VStr "super_admin")) ≠ VNone
    ∧ truthy (is_active (set_role (user_of_doc alice) (VStr "super_admin"))) = true
    ∧ role (set_role (user_of_doc alice) (VStr "super_admin"))
      = dict_get payload "role" (VStr "user").
Proof.
  apply (get_current_user_sound demo_jwt "secret" "HS256" demo_store 1000000%Z
           (demo_token [("sub", VStr "alice"); ("role", VStr "super_admin");
                        ("exp", VInt 5)])
           (set_role (user_of_doc alice) (VStr "super_admin"))).
  vm_compute. reflexivity.
Defined.

Lemma manufacturer_principal_carries_no_hash_witness :
  let payload := record [("sub", VStr "acme"); ("exp", VInt 5)] in
  hashed_password (set_role (manufacturer_view acme) (VStr "user")) = VStr ""
  ∧ ∃ d, find_one "username" (dict_get payload "sub" VNone)
           (manufacturers_collection demo_store) = Some d
         ∧ set_role (manufacturer_view acme) (VStr "user")
           = set_role (manufacturer_view d) (dict_get payload "role" (VStr "user")).
Proof.
  intros payload.
  apply (manufacturer_principal_carries_no_hash demo_jwt "secret" "HS256" demo_store
           1000000%Z (demo_token [("sub", VStr "acme"); ("exp", VInt 5)]) payload
           (set_role (manufacturer_view acme) (VStr "user"))).
  - vm_compute. reflexivity.
  - vm_compute. reflexivity.
  - vm_compute. reflexivity.
Defined.

Lemma get_current_user_ignores_manufacturers_witness :
  let tok := demo_token [("sub", VStr "alice"); ("role", VStr "user"); ("exp", VInt 5)] in
  get_current_user demo_jwt "secret" "HS256" demo_store 1000000 tok
  = get_current_user demo_jwt "secret" "HS256"
      (Store (users_collection demo_store) []) 1000000 tok.
Proof.
  intros tok.
  apply (get_current_user_ignores_manufacturers demo_jwt "secret" "HS256"
           demo_store (Store (users_collection demo_store) []) 1000000%Z tok
           (record [("sub", VStr "alice"); ("role", VStr "user"); ("exp", VInt 5)])).
  - reflexivity.
  - vm_compute. reflexivity.
  - exists alice. vm_compute. reflexivity.
Defined.

Lemma super_admin_decided_by_token_witness :
  let payload := record [("sub", VStr "alice"); ("role", VStr "super_admin");
                         ("exp", VInt 5)] in
  let p := set_role (user_of_doc alice) (VStr "super_admin") in
  (get_super_admin_user p = Ret p ↔ payload !! "role" = Some (VStr "super_admin"))
  ∧ (get_super_admin_user p = Raise forbidden_exception
     ↔ payload !! "role" ≠ Some (VStr "super_admin")).
Proof.
  intros payload p.
  apply (super_admin_decided_by_token demo_jwt "secret" "HS256" demo_store 1000000%Z
           (demo_token [("sub", VStr "alice"); ("role", VStr "super_admin");
                        ("exp", VInt 5)]) payload p).
  - vm_compute. reflexivity.
  - vm_compute. reflexivity.
Defined.

Lemma manufacturer_without_company_name_witness :
  let st := Store [] [record [("username", VStr "hooli"); ("email", VStr "h@hooli.example");
                              ("hashed_password", VStr "$plain$s$gavin")]] in
  let payload := record [("sub", VStr "hooli"); ("exp", VInt 5)] in
  get_manufacturer st (dict_get payload "sub" VNone) = Raise (KeyError "company_name")
  ∧ get_current_user demo_jwt "secret" "HS256" st 1000000
      (demo_token [("sub", VStr "hooli"); ("exp", VInt 5)])
    = Raise (KeyError "company_name").
Proof.
  intros st payload.
  apply (manufacturer_without_company_name demo_jwt "secret" "HS256" st 1000000%Z
           (demo_token [("sub", VStr "hooli"); ("exp", VInt 5)]) payload
           (record [("username", VStr "hooli"); ("email", VStr "h@hooli.example");
                    ("hashed_password", VStr "$plain$s$gavin")])).
  - vm_compute. reflexivity.
  - vm_compute. discriminate.
  - vm_compute. reflexivity.
  - vm_compute. reflexivity.
  - eexists. vm_compute. reflexivity.
  - vm_compute. reflexivity.
Defined.

(** ** How a login fails *)

(** X22: [authenticate_manufacturer] returns [False] for a username the
    manufacturer store does not hold and for a password that does not
    verify; a document without [hashed_password] ends in [KeyError], and
    an exception of the password context escapes unchanged. *)
Theorem authenticate_manufacturer_failures ctx st (uname password : string) :
  (find_one "username" (VStr uname) (manufacturers_collection st) = None →
   authenticate_manufacturer ctx st uname password = Ret AuthFalse)
  ∧ (∀ d, find_one "username" (VStr uname) (manufacturers_collection st) = Some d →
          d !! "hashed_password" = None →
          authenticate_manufacturer ctx st uname password
          = Raise (KeyError "hashed_password"))
  ∧ (∀ d h, find_one "username" (VStr uname) (manufacturers_collection st) = Some d →
            d !! "hashed_password" = Some h →
            verify ctx password h = Ret false →
            authenticate_manufacturer ctx st uname password = Ret AuthFalse)
  ∧ (∀ d h e, find_one "username" (VStr uname) (manufacturers_collection st) = Some d →
              d !! "hashed_password" = Some h →
              verify ctx password h = Raise e →
              authenticate_manufacturer ctx st uname password = Raise e).
Proof.
  split_and!.
  - intros Hf. unfold authenticate_manufacturer. by rewrite Hf.
  - intros d Hf Hh. unfold authenticate_manufacturer. rewrite Hf.
    apply find_one_Some in Hf as [_ Hm].
    unfold found. rewrite (matches_nonempty "username" (VStr uname) d ltac:(done) Hm).
    unfold dict_item. rewrite Hh. reflexivity.
  - intros d h Hf Hh Hv.
    rewrite (authenticate_manufacturer_stored ctx st uname password d h Hf Hh).
    by rewrite Hv.
  - intros d h e Hf Hh Hv.
    rewrite (authenticate_manufacturer_stored ctx st uname password d h Hf Hh).
    by rewrite Hv.
Qed.

(** X23: once the user store holds the username, a password that does
    not verify against the user's hash gives [False], also when the
    manufacturer store holds the same username with a hash the password
    would verify against. *)
Theorem authenticate_user_no_fallback ctx st (uname password : string) d :
  find_one "username" (VStr uname) (users_collection st) = Some d →
  user_doc_ok d →
  verify ctx password (dict_get d "hashed_password" VNone) = Ret false →
  authenticate_user ctx st uname password = Ret AuthFalse.
Proof.
  intros Hf Hok Hv.
  rewrite (authenticate_user_stored ctx st uname password d Hf Hok).
  by rewrite Hv.
Qed.

Lemma authenticate_user_no_fallback_witness :
  authenticate_user PlainScheme.context
    (Store [alice]
           [record [("username", VStr "alice"); ("email", VStr "x@example.org");
                    ("hashed_password", VStr "$plain$s$other");
                    ("company_name", VStr "Alice Ltd")]])
    "alice" "other"
  = Ret AuthFalse.
Proof.
  apply (authenticate_user_no_fallback PlainScheme.context _ "alice" "other" alice).
  - vm_compute. reflexivity.
  - split; eexists; vm_compute; reflexivity.
  - vm_compute. reflexivity.
Defined.

Example authenticate_manufacturer_failures_example :
  authenticate_manufacturer PlainScheme.context demo_store "nobody" "pw" = Ret AuthFalse
  ∧ authenticate_manufacturer PlainScheme.context demo_store "acme" "hammer" = Ret AuthFalse
  ∧ authenticate_manufacturer PlainScheme.context
      (Store [] [record [("username", VStr "hooli"); ("email", VStr "h@hooli.example")]])
      "hooli" "pw" = Raise (KeyError "hashed_password")
  ∧ authenticate_manufacturer PlainScheme.context
      (Store [] [record [("username", VStr "hooli"); ("email", VStr "h@hooli.example");
                         ("hashed_password", VStr "not a hash")]])
      "hooli" "pw" = Raise (UnknownHashError "hash could not be identified").
Proof. split_and!; vm_compute; reflexivity. Qed.
